(** * add_deps.py: conversion of text files to the cupt format

    A shallow embedding of [add_deps.py] and the properties of its
    sentence reconstruction, of its serialisation of words and of its
    per-file batch loop.

    Python strings are [string]; the lists the program grows with
    [append] are [list]s extended at the right; exceptions are values of
    an error monad; the file system and the log are explicit state. *)

From Stdlib Require Import ZArith List Ascii String.
From stdpp Require Import base option list strings pretty gmap fin_maps.

Local Open Scope string_scope.
Local Open Scope list_scope.
Local Open Scope Z_scope.

(** ** Python values *)

Module Py.

(** The values the program puts in [word_props]: [None], integers and
    strings. *)
Inductive value :=
| PNone
| PInt (z : Z)
| PStr (s : string).

(** Truth value of an object in a condition: [None], [0] and [""] are
    false. *)
Definition truthy (v : value) : bool :=
  match v with
  | PNone => false
  | PInt z => negb (z =? 0)
  | PStr s => negb (String.eqb s "")
  end.

(** [str(v)]. *)
Definition str (v : value) : string :=
  match v with
  | PNone => "None"
  | PInt z => pretty z
  | PStr s => s
  end.

(** [v == w] on these values. *)
Definition eqb (v w : value) : bool :=
  match v, w with
  | PNone, PNone => true
  | PInt a, PInt b => a =? b
  | PStr a, PStr b => String.eqb a b
  | _, _ => false
  end.

(** [a if a else b]. *)
Definition if_else (a b : value) : value := if truthy a then a else b.

Definition of_str (o : option string) : value :=
  match o with Some s => PStr s | None => PNone end.

Definition of_int (o : option Z) : value :=
  match o with Some z => PInt z | None => PNone end.

(** [sep.join(l)]. *)
Fixpoint join (sep : string) (l : list string) : string :=
  match l with
  | [] => ""
  | [x] => x
  | x :: rest => x +:+ sep +:+ join sep rest
  end.

(** [s.split(c)] for a separator [c] of one character. *)
Fixpoint split (c : ascii) (s : string) : list string :=
  match s with
  | EmptyString => [""]
  | String a rest =>
      if Ascii.eqb a c then "" :: split c rest
      else match split c rest with
           | x :: xs => String a x :: xs
           | [] => [String a ""]
           end
  end.

(** [c in s] for a character [c]. *)
Fixpoint has_char (c : ascii) (s : string) : bool :=
  match s with
  | EmptyString => false
  | String a rest => Ascii.eqb a c || has_char c rest
  end.

(** [x in l] for a list of strings. *)
Definition contains (x : string) (l : list string) : bool :=
  existsb (String.eqb x) l.

(** [enumerate(l)]. *)
Definition enumerate {A} (l : list A) : list (nat * A) :=
  combine (seq 0 (length l)) l.

(** Exceptions (instances of [Exception]), with the text [str(e)]
    gives. *)
Record exn := Exn { exn_class : string; exn_text : string }.

Inductive result (A : Type) :=
| Ok (a : A)
| Raise (e : exn).
Arguments Ok {A} a.
Arguments Raise {A} e.

Definition bind {A B} (r : result A) (k : A -> result B) : result B :=
  match r with
  | Ok a => k a
  | Raise e => Raise e
  end.

(** A [for] loop whose body may raise. *)
Fixpoint for_each {A S} (body : S -> A -> result S) (l : list A) (s : S)
  : result S :=
  match l with
  | [] => Ok s
  | x :: rest => bind (body s x) (for_each body rest)
  end.

(** [l[i]]. *)
Definition index {A} (l : list A) (i : Z) : result A :=
  let n := Z.of_nat (length l) in
  let j := if i <? 0 then i + n else i in
  if (j <? 0) || (n <=? j) then Raise (Exn "IndexError" "list index out of range")
  else match l !! Z.to_nat j with
       | Some x => Ok x
       | None => Raise (Exn "IndexError" "list index out of range")
       end.

End Py.

Notation "x <- c1 ;; c2" := (Py.bind c1 (fun x => c2))
  (at level 100, c1 at next level, right associativity).

(** ** The documents of the pipeline *)

(** Modelled from the spec: the [Word], [Sentence] and [Document]
    classes belong to the pipeline library and are not part of the
    program.  A word has an integer index and a text; its lemma, tags,
    features and dependency relation are strings or absent; its governor
    is an integer or absent. *)
Record Word := {
  index : Z;
  text : string;
  lemma : option string;
  upos : option string;
  xpos : option string;
  feats : option string;
  governor : option Z;
  dependency_relation : option string
}.

Record Sentence := { words : list Word }.

Record Document := { sentences : list Sentence }.

(** ** Sentence reconstruction *)

Definition TAB : string := String "009"%char "".
Definition NL : string := String "010"%char "".

(** [get_original_sentence], lines 50-74: one iteration of the loop over
    [enumerate(words)]. *)
Definition original_sentence_step (words : list Word)
    (original_sentence : string) (iw : nat * Word) : Py.result string :=
  let '(idx, word) := iw in
  if Z.of_nat idx <? Z.of_nat (length words) - 1 then
    nxt <- Py.index words (Z.of_nat idx + 1) ;;
    if Py.eqb (Py.of_str (upos nxt)) (Py.PStr "PUNCT") then
      Py.Ok (original_sentence +:+ text word)
    else
      Py.Ok (original_sentence +:+ (text word +:+ " "))
  else
    Py.Ok (original_sentence +:+ text word).

Definition get_original_sentence (sentence : Sentence) : Py.result string :=
  let original_sentence := "" in
  let words := words sentence in
  Py.for_each (original_sentence_step words) (Py.enumerate words)
    original_sentence.

(** The reconstruction in the words of the specification: every word's
    text, followed by one space unless the word is the last one or the
    next word is tagged [PUNCT]. *)
Definition is_PUNCT (w : Word) : bool :=
  match upos w with
  | Some t => String.eqb t "PUNCT"
  | None => false
  end.

Fixpoint spec_original_sentence (ws : list Word) : string :=
  match ws with
  | [] => ""
  | w :: rest =>
      text w +:+
      match rest with
      | [] => ""
      | nxt :: _ => if is_PUNCT nxt then "" else " "
      end +:+ spec_original_sentence rest
  end.

Definition mkWord (i : Z) (t u : string) : Word :=
  {| index := i; text := t; lemma := None; upos := Some u; xpos := None;
     feats := None; governor := None; dependency_relation := None |}.

Definition hello_world : Sentence :=
  {| words := [ mkWord 1 "Hello" "INTJ"; mkWord 2 "," "PUNCT";
                mkWord 3 "world" "NOUN"; mkWord 4 "!" "PUNCT" ] |}.


(** ** Serialisation of a document *)

Definition HEADER : string :=
  "# global.columns = ID FORM LEMMA UPOS XPOS FEATS HEAD DEPREL DEPS MISC PARSEME:MWE".

(** Lines 121-132: the eleven [append]s to [word_props]. *)
Definition append_word_props (word_props : list Py.value) (word : Word)
  : list Py.value :=
  let word_props := word_props ++ [Py.PInt (index word)] in
  let word_props := word_props ++ [Py.PStr (text word)] in
  let word_props :=
    word_props ++ [Py.if_else (Py.of_str (lemma word)) (Py.PStr "")] in
  let word_props :=
    word_props ++ [Py.if_else (Py.of_str (upos word)) (Py.PStr "")] in
  let word_props :=
    word_props ++ [Py.if_else (Py.of_str (xpos word)) (Py.PStr "")] in
  let word_props :=
    word_props ++ [Py.if_else (Py.of_str (feats word)) (Py.PStr "")] in
  let word_props :=
    word_props ++ [Py.if_else (Py.of_int (governor word)) (Py.PStr "")] in
  let word_props :=
    word_props ++
    [Py.if_else (Py.of_str (dependency_relation word)) (Py.PStr "")] in
  let word_props := word_props ++ [Py.PStr "_"] in
  let word_props := word_props ++ [Py.PStr "_"] in
  let word_props := word_props ++ [Py.PStr "_"] in
  word_props.

(** Lines 119-136: one iteration of the loop over [sentence.words].  The
    state is the pair of [cupt_content] and [word_props]. *)
Definition word_step (st : list string * list Py.value) (word : Word)
  : list string * list Py.value :=
  let '(cupt_content, word_props) := st in
  let word_props := append_word_props word_props word in
  let word_strs := map Py.str word_props in
  let cupt_content := cupt_content ++ [Py.join TAB word_strs] in
  let word_props := [] in
  let cupt_content := cupt_content ++ [""] in
  (cupt_content, word_props).

(** Lines 111-136: one iteration of the loop over [doc.sentences]. *)
Definition sentence_step (path_to_file : string) (cupt_content : list string)
    (sentence : Sentence) : Py.result (list string) :=
  let cupt_content :=
    cupt_content ++ ["# source_sent_id = . . " +:+ path_to_file] in
  original_sentence <- get_original_sentence sentence ;;
  let cupt_content := cupt_content ++ ["# text = " +:+ original_sentence] in
  let word_props := [] in
  let '(cupt_content, _) :=
    fold_left word_step (words sentence) (cupt_content, word_props) in
  Py.Ok cupt_content.

(** Lines 108-136: the content of the output file, as a list of lines. *)
Definition build_cupt_content (path_to_file : string) (doc : Document)
  : Py.result (list string) :=
  let cupt_content := [HEADER] in
  Py.for_each (sentence_step path_to_file) (sentences doc) cupt_content.

(** The fields of the line of a word and the line itself, as [word_step]
    computes them from an empty [word_props]. *)
Definition word_fields (word : Word) : list string :=
  map Py.str (append_word_props [] word).

Definition word_line (word : Word) : string :=
  Py.join TAB (word_fields word).

(** ** Paths *)

(** The functions of Python's [os.path] on POSIX paths. *)
Module os_path.

(** [s.rfind(c)]: the index of the last [c] in [s], or [-1]. *)
Fixpoint rfind (c : ascii) (s : string) : Z :=
  match s with
  | EmptyString => -1
  | String a rest =>
      let r := rfind c rest in
      if 0 <=? r then r + 1 else if Ascii.eqb a c then 0 else -1
  end.

(** [s[:i]] and [s[i:]] for [0 <= i]. *)
Definition take (i : Z) (s : string) : string :=
  String.substring 0 (Z.to_nat i) s.
Definition drop (i : Z) (s : string) : string :=
  String.substring (Z.to_nat i) (String.length s - Z.to_nat i) s.

Definition startswith (c : ascii) (s : string) : bool :=
  match s with
  | String a _ => Ascii.eqb a c
  | EmptyString => false
  end.

Fixpoint endswith (c : ascii) (s : string) : bool :=
  match s with
  | EmptyString => false
  | String a EmptyString => Ascii.eqb a c
  | String _ rest => endswith c rest
  end.

(** [s.rstrip(c)]. *)
Fixpoint rstrip (c : ascii) (s : string) : string :=
  match s with
  | EmptyString => EmptyString
  | String a rest =>
      match rstrip c rest with
      | EmptyString => if Ascii.eqb a c then EmptyString else String a EmptyString
      | r => String a r
      end
  end.

(** [os.path.join(a, b)]. *)
Definition join (a b : string) : string :=
  if startswith "/" b then b
  else if String.eqb a "" || endswith "/" a then a +:+ b
  else a +:+ "/" +:+ b.

(** [os.path.split(p)]. *)
Definition split (p : string) : string * string :=
  let i := rfind "/" p + 1 in
  let head := take i p in
  let tail := drop i p in
  let head :=
    if negb (String.eqb head "") && negb (String.eqb (rstrip "/" head) "")
    then rstrip "/" head else head in
  (head, tail).

(** The loop of [splitext] over the leading dots: is there a character
    other than the dot among the [n] characters of [s]? *)
Fixpoint not_all_dots (n : nat) (s : string) : bool :=
  match n, s with
  | S n', String a rest => if Ascii.eqb a "." then not_all_dots n' rest else true
  | _, _ => false
  end.

(** [os.path.splitext(p)]. *)
Definition splitext (p : string) : string * string :=
  let sepIndex := rfind "/" p in
  let dotIndex := rfind "." p in
  if (sepIndex <? dotIndex)
     && not_all_dots (Z.to_nat (dotIndex - (sepIndex + 1)))
          (drop (sepIndex + 1) p)
  then (take dotIndex p, drop dotIndex p)
  else (p, "").

End os_path.


(** ** The file system and the log *)

(** A path names a file with its text or a directory with the names it
    lists.  Paths are compared as they are spelt. *)
Inductive node :=
| File (content : string)
| Dir (entries : list string).

Inductive level := INFO | ERROR.

(** The state the program acts on: the file system and the records in
    the log file [parser.log], oldest first. *)
Record World := {
  fs : gmap string node;
  log : list (level * string)
}.

Definition set_fs (w : World) (m : gmap string node) : World :=
  {| fs := m; log := log w |}.

(** Statements that read and change the world and may raise. *)
Definition IO (A : Type) : Type := World -> World * Py.result A.

Definition io_ret {A} (a : A) : IO A := fun w => (w, Py.Ok a).

Definition io_raise {A} (e : Py.exn) : IO A := fun w => (w, Py.Raise e).

Definition io_bind {A B} (c : IO A) (k : A -> IO B) : IO B :=
  fun w =>
    match c w with
    | (w', Py.Ok a) => k a w'
    | (w', Py.Raise e) => (w', Py.Raise e)
    end.

Notation "x <~ c1 ;; c2" := (io_bind c1 (fun x => c2))
  (at level 100, c1 at next level, right associativity).

(** A computation without effect on the world. *)
Definition io_lift {A} (r : Py.result A) : IO A := fun w => (w, r).

(** [for x in l: body(x)]. *)
Fixpoint io_for_each {A} (body : A -> IO unit) (l : list A) : IO unit :=
  match l with
  | [] => io_ret tt
  | x :: rest => _ <~ body x ;; io_for_each body rest
  end.

(** [try: block except Exception as e: handler(e)]. *)
Definition try_except {A} (block : IO A) (handler : Py.exn -> IO A) : IO A :=
  fun w =>
    match block w with
    | (w', Py.Ok a) => (w', Py.Ok a)
    | (w', Py.Raise e) => handler e w'
    end.

(** The numbers of the levels of [logging]. *)
Definition levelno (l : level) : Z :=
  match l with
  | INFO => 20
  | ERROR => 40
  end.

(** Lines 13-17: [logging.basicConfig] is called with a file name, a
    mode and a format, and without [level], so that the root logger
    keeps its level, WARNING. *)
Definition ROOT_LEVEL : Z := 30.

(** A call of the root logger at a level: the record is written when
    the level is not below the level of the logger, and dropped
    otherwise. *)
Definition logging_log (l : level) (msg : string) : IO unit :=
  fun w =>
    if ROOT_LEVEL <=? levelno l then
      ({| fs := fs w; log := log w ++ [(l, msg)] |}, Py.Ok tt)
    else (w, Py.Ok tt).

Definition logging_info (msg : string) : IO unit := logging_log INFO msg.

Definition logging_error (msg : string) : IO unit := logging_log ERROR msg.

Definition FileNotFoundError (p : string) : Py.exn :=
  Py.Exn "FileNotFoundError"
    ("[Errno 2] No such file or directory: '" +:+ p +:+ "'").
Definition IsADirectoryError (p : string) : Py.exn :=
  Py.Exn "IsADirectoryError" ("[Errno 21] Is a directory: '" +:+ p +:+ "'").
Definition NotADirectoryError (p : string) : Py.exn :=
  Py.Exn "NotADirectoryError" ("[Errno 20] Not a directory: '" +:+ p +:+ "'").

(** [os.listdir(path)]. *)
Definition os_listdir (path : string) : IO (list string) :=
  fun w =>
    match fs w !! path with
    | Some (Dir entries) => (w, Py.Ok entries)
    | Some (File _) => (w, Py.Raise (NotADirectoryError path))
    | None => (w, Py.Raise (FileNotFoundError path))
    end.

(** [os.path.exists(path)]. *)
Definition os_path_exists (path : string) : IO bool :=
  fun w => (w, Py.Ok (bool_decide (is_Some (fs w !! path)))).

(** [open(path).read()]. *)
Definition open_read (path : string) : IO string :=
  fun w =>
    match fs w !! path with
    | Some (File content) => (w, Py.Ok content)
    | Some (Dir _) => (w, Py.Raise (IsADirectoryError path))
    | None => (w, Py.Raise (FileNotFoundError path))
    end.

(** The listing of a directory after a file of this name was created in
    it. *)
Definition add_entry (name : string) (entries : list string) : list string :=
  if Py.contains name entries then entries else entries ++ [name].

(** [open(path, "w")]: the file is created empty, or emptied, in its
    directory, which has to exist. *)
Definition open_write (path : string) : IO string :=
  fun w =>
    let '(head, tail) := os_path.split path in
    match fs w !! path, fs w !! head with
    | Some (Dir _), _ => (w, Py.Raise (IsADirectoryError path))
    | _, Some (Dir entries) =>
        (set_fs w (<[path := File ""]>
                     (<[head := Dir (add_entry tail entries)]> (fs w))),
         Py.Ok path)
    | _, Some (File _) => (w, Py.Raise (NotADirectoryError path))
    | _, None => (w, Py.Raise (FileNotFoundError path))
    end.

Section Converter.

(** The error that the writing of a text raises because of the text
    itself, as for a text the encoding of the file cannot express, or
    nothing.  The errors of the device, which come when the buffer of
    the file is flushed, are not in the model. *)
Variable write_error : string -> option Py.exn.

(** [f.write(s)] for the file opened at [path]; the file is shown as
    it is once closed, with all that was written to it. *)
Definition file_write (path : string) (s : string) : IO unit :=
  fun w =>
    match write_error s with
    | Some e => (w, Py.Raise e)
    | None =>
        match fs w !! path with
        | Some (File content) =>
            (set_fs w (<[path := File (content +:+ s)]> (fs w)), Py.Ok tt)
        | _ => (w, Py.Raise (Py.Exn "ValueError" "I/O operation on closed file."))
        end
    end.

(** ** The batch converter *)

(** The pipeline handle: a function from a text to a document, which may
    raise. *)
Definition Pipeline : Type := string -> Py.result Document.

(** Lines 105-142: the block under [try]. *)
Definition convert_file (path_to_file out_file filename : string)
    (nlp : Pipeline) : IO unit :=
  file_content <~ open_read path_to_file ;;
  doc <~ io_lift (nlp file_content) ;;
  cupt_content <~ io_lift (build_cupt_content path_to_file doc) ;;
  cupt <~ open_write out_file ;;
  _ <~ io_for_each (fun line => file_write cupt (line +:+ NL)) cupt_content ;;
  logging_info
    ("Processed " +:+ filename +:+ ", content writen to " +:+ out_file +:+ ".").

(** Line 98. *)
Definition filename_of (path_to_file : string) : string :=
  fst (os_path.splitext (snd (os_path.split path_to_file))).

(** Line 99. *)
Definition out_file_of (destination path_to_file : string) : string :=
  os_path.join destination (filename_of path_to_file +:+ ".cupt").

(** Lines 96-144: one iteration of the loop over [files]. *)
Definition tag_file (destination : string) (nlp : Pipeline)
    (path_to_file : string) : IO unit :=
  let filename := filename_of path_to_file in
  let out_file := os_path.join destination (filename +:+ ".cupt") in
  present <~ os_path_exists out_file ;;
  if (present : bool) then
    logging_info ("File " +:+ filename +:+ " already exists.")
  else
    try_except
      (convert_file path_to_file out_file filename nlp)
      (fun e =>
         logging_error
           ("Error " +:+ Py.exn_text e +:+ " occured while processing "
            +:+ filename +:+ ".")).

(** [tag_files], lines 77-144. *)
Definition tag_files (source destination : string) (nlp : Pipeline)
  : IO unit :=
  names <~ os_listdir source ;;
  let files := map (fun filename => os_path.join source filename) names in
  io_for_each (tag_file destination nlp) files.

(** ** The command line *)

(** The arguments as [argparse] returns them: [--processors] and
    [--batch] are [None] when they are not given. *)
Record Args := {
  source : string;
  dest : string;
  lang : string;
  processors : option (list string);
  batch : option Z
}.

Definition PROCESSORS : string := "tokenize,mwt,pos,lemma,depparse".

(** Truth value of a list or [None]. *)
Definition truthy_list {A} (o : option (list A)) : bool :=
  match o with
  | Some (_ :: _) => true
  | _ => false
  end.

(** Lines 151-152: [args.processors] after the check for [tokenize]. *)
Definition checked_processors (ps : option (list string))
  : option (list string) :=
  match ps with
  | Some l =>
      if truthy_list ps && negb (Py.contains "tokenize" l)
      then Some (l ++ ["tokenize"])
      else ps
  | None => ps
  end.

(** Line 153. *)
Definition processors_args (ps : option (list string)) : string :=
  match checked_processors ps with
  | Some l => if truthy_list (Some l) then Py.join "," l else PROCESSORS
  | None => PROCESSORS
  end.

(** Line 154. *)
Definition pos_batch_size_arg (b : option Z) : Z :=
  match b with
  | Some n => if Py.truthy (Py.PInt n) then n else 1000
  | None => 1000
  end.

(** The constructor of the pipeline library, which may raise. *)
Variable stanfordnlp_Pipeline : string -> string -> Z -> Py.result Pipeline.

(** [prepare_library], lines 21-26. *)
Definition prepare_library (lang processors : string) (pos_batch_size : Z)
  : Py.result Pipeline :=
  nlp <- stanfordnlp_Pipeline lang processors pos_batch_size ;;
  Py.Ok nlp.

(** Lines 148-157. *)
Definition main (args : Args) : IO unit :=
  nlp <~ io_lift (prepare_library (lang args)
                    (processors_args (processors args))
                    (pos_batch_size_arg (batch args))) ;;
  tag_files (source args) (dest args) nlp.

End Converter.

(** ** Derived descriptions *)

(** A string, an attribute and a word without a tab. *)
Definition tab_free (s : string) : Prop := Py.has_char "009" s = false.

Definition attr_tab_free (o : option string) : Prop :=
  match o with
  | Some s => tab_free s
  | None => True
  end.

Definition word_tab_free (w : Word) : Prop :=
  tab_free (text w) /\ attr_tab_free (lemma w) /\ attr_tab_free (upos w)
  /\ attr_tab_free (xpos w) /\ attr_tab_free (feats w)
  /\ attr_tab_free (dependency_relation w).

(** The part of the output that [word_step] adds for the words of a
    sentence: the line of every word, each followed by an empty line. *)
Definition word_records (s : Sentence) : list string :=
  flat_map (fun w => [word_line w; ""]) (words s).

(** The lines of a sentence in the output. *)
Definition sentence_block (path_to_file : string) (s : Sentence)
  : list string :=
  ("# source_sent_id = . . " +:+ path_to_file)
  :: ("# text = " +:+ spec_original_sentence (words s))
  :: word_records s.

(** The lines of a document in the output. *)
Definition cupt_lines (path_to_file : string) (doc : Document) : list string :=
  HEADER :: flat_map (sentence_block path_to_file) (sentences doc).

Definition plain (i : Z) (t : string) : Word :=
  {| index := i; text := t; lemma := None; upos := None; xpos := None;
     feats := None; governor := None; dependency_relation := None |}.

(** A sentence of two words. *)
Definition dober : Word :=
  {| index := 1; text := "Dober"; lemma := Some "dober"; upos := Some "ADJ";
     xpos := Some "Agpmsnn"; feats := Some "Case=Nom"; governor := Some 2;
     dependency_relation := Some "amod" |}.

Definition dan : Word :=
  {| index := 2; text := "dan"; lemma := Some "dan"; upos := Some "NOUN";
     xpos := Some "Ncmsn"; feats := Some "Case=Nom"; governor := Some 0;
     dependency_relation := Some "root" |}.

Definition two_words : Sentence := {| words := [dober; dan] |}.

Definition two_words_doc : Document := {| sentences := [two_words] |}.

(** A word with a tab in its text, alone in a sentence. *)
Definition tabbed : Word := plain 1 ("a" +:+ TAB +:+ "b").

Definition tabbed_sentence : Sentence := {| words := [tabbed] |}.

Definition tabbed_doc : Document := {| sentences := [tabbed_sentence] |}.

(** ** The outcome of one file *)

(** The text of a file into which these lines were written, each with
    its end of line. *)
Fixpoint file_text (lines : list string) : string :=
  match lines with
  | [] => ""
  | line :: rest => (line +:+ NL) +:+ file_text rest
  end.

(** The world after a record was handed to the root logger. *)
Definition add_log (w : World) (entry : level * string) : World :=
  fst (logging_log (fst entry) (snd entry) w).

Definition exists_entry (filename : string) : level * string :=
  (INFO, "File " +:+ filename +:+ " already exists.").

Definition processed_entry (filename out_file : string) : level * string :=
  (INFO,
   "Processed " +:+ filename +:+ ", content writen to " +:+ out_file +:+ ".").

Definition error_entry (filename : string) (e : Py.exn) : level * string :=
  (ERROR,
   "Error " +:+ Py.exn_text e +:+ " occured while processing "
   +:+ filename +:+ ".").

(** The directory in which the output file of an input file is
    created. *)
Definition out_dir_of (destination path_to_file : string) : string :=
  fst (os_path.split (out_file_of destination path_to_file)).

(** What the first three statements under [try] give in a file system:
    the lines to write, or the error of the reading or of the
    pipeline. *)
Definition assemble (nlp : Pipeline) (path_to_file : string)
    (m : gmap string node) : Py.result (list string) :=
  match m !! path_to_file with
  | Some (File content) =>
      doc <- nlp content ;; build_cupt_content path_to_file doc
  | Some (Dir _) => Py.Raise (IsADirectoryError path_to_file)
  | None => Py.Raise (FileNotFoundError path_to_file)
  end.

(** The error of [open(path, "w")] in a file system, if any. *)
Definition open_error (m : gmap string node) (path : string)
  : option Py.exn :=
  match m !! path, m !! fst (os_path.split path) with
  | Some (Dir _), _ => Some (IsADirectoryError path)
  | _, Some (Dir _) => None
  | _, Some (File _) => Some (NotADirectoryError path)
  | _, None => Some (FileNotFoundError path)
  end.

(** The file system after [open(path, "w")] succeeded. *)
Definition created (m : gmap string node) (path : string)
  : gmap string node :=
  match m !! fst (os_path.split path) with
  | Some (Dir entries) =>
      <[path := File ""]>
        (<[fst (os_path.split path) :=
             Dir (add_entry (snd (os_path.split path)) entries)]> m)
  | _ => m
  end.

(** A later state of a file system in a run of the program: the files
    are as they were, the directories are still directories, and there
    is no directory that was not one before. *)
Definition future (m m' : gmap string node) : Prop :=
  forall p : string,
    (forall c, m !! p = Some (File c) -> m' !! p = Some (File c))
    /\ (forall es, m !! p = Some (Dir es) -> exists es', m' !! p = Some (Dir es'))
    /\ (forall es', m' !! p = Some (Dir es') -> exists es, m !! p = Some (Dir es)).

Section Outcome.

Variable write_error : string -> option Py.exn.

(** What the loop of the writes puts in the file and the error that
    ends it, if any. *)
Fixpoint write_lines (lines : list string) : string * option Py.exn :=
  match lines with
  | [] => ("", None)
  | line :: rest =>
      match write_error (line +:+ NL) with
      | Some e => ("", Some e)
      | None =>
          let '(txt, err) := write_lines rest in
          ((line +:+ NL) +:+ txt, err)
      end
  end.

(** The world after the iteration of the loop for one file. *)
Definition tag_file_result (destination : string) (nlp : Pipeline)
    (path_to_file : string) (w : World) : World :=
  let filename := filename_of path_to_file in
  let out_file := out_file_of destination path_to_file in
  if bool_decide (is_Some (fs w !! out_file)) then
    add_log w (exists_entry filename)
  else
    match assemble nlp path_to_file (fs w) with
    | Py.Raise e => add_log w (error_entry filename e)
    | Py.Ok lines =>
        match open_error (fs w) out_file with
        | Some e => add_log w (error_entry filename e)
        | None =>
            add_log
              {| fs := <[out_file := File (fst (write_lines lines))]>
                         (created (fs w) out_file);
                 log := log w |}
              match snd (write_lines lines) with
              | None => processed_entry filename out_file
              | Some e => error_entry filename e
              end
        end
    end.

(** The world after the loop over the files. *)
Definition tag_files_result (destination : string) (nlp : Pipeline)
    (files : list string) (w : World) : World :=
  fold_left (fun w path => tag_file_result destination nlp path w) files w.

End Outcome.




(** ** A small world *)

(** A source directory with a text and an empty text, and an empty
    destination directory. *)
Definition small_fs : gmap string node :=
  <["src" := Dir ["a.txt"; "b.txt"]]>
    (<["src/a.txt" := File "Dober dan"]>
       (<["src/b.txt" := File ""]>
          (<["out" := Dir []]> ∅))).

Definition small_world : World := {| fs := small_fs; log := [] |}.

(** A pipeline that refuses the empty text and finds the two words in
    any other. *)
Definition refused : Py.exn := Py.Exn "ValueError" "nothing to analyse".

Definition small_nlp : Pipeline :=
  fun content =>
    if String.eqb content "" then Py.Raise refused else Py.Ok two_words_doc.

Definition no_write_error : string -> option Py.exn := fun _ => None.

(** The small world after a run of the converter. *)
Definition small_world_after : World :=
  fst (tag_files no_write_error "src" "out" small_nlp small_world).

(** ** Measures *)

(** The characters of the texts of some words, and the number of spaces
    the reconstruction puts between them: one before each word but the
    first that is not tagged [PUNCT]. *)
Definition text_length (ws : list Word) : nat :=
  list_sum (map (fun w => String.length (text w)) ws).

Definition space_count (ws : list Word) : nat :=
  length (List.filter (fun w => negb (is_PUNCT w)) (tail ws)).

(** The words of a document and the empty lines among some lines. *)
Definition word_count (doc : Document) : nat :=
  length (flat_map words (sentences doc)).

Definition empty_lines (lines : list string) : nat :=
  count_occ String.string_dec lines "".

(** The word [dan] with another text. *)
Definition dan_as (t : string) : Word :=
  {| index := index dan; text := t; lemma := lemma dan; upos := upos dan;
     xpos := xpos dan; feats := feats dan; governor := governor dan;
     dependency_relation := dependency_relation dan |}.

(** ** Command lines and faults for the small world *)

(** A constructor that returns the small pipeline, and one that has no
    models for the language. *)
Definition small_Pipeline : string -> string -> Z -> Py.result Pipeline :=
  fun _ _ _ => Py.Ok small_nlp.

Definition no_models : Py.exn :=
  Py.Exn "FileNotFoundError" "no models for this language".

Definition no_Pipeline : string -> string -> Z -> Py.result Pipeline :=
  fun _ _ _ => Py.Raise no_models.

Definition small_args : Args :=
  {| source := "src"; dest := "out"; lang := "sl"; processors := None;
     batch := None |}.

Definition lost_args : Args :=
  {| source := "nowhere"; dest := "out"; lang := "sl"; processors := None;
     batch := None |}.

(** An encoding that has the characters below 128 only. *)
Fixpoint all_ascii (s : string) : bool :=
  match s with
  | EmptyString => true
  | String c rest => (nat_of_ascii c <? 128)%nat && all_ascii rest
  end.

Definition unencodable : Py.exn :=
  Py.Exn "UnicodeEncodeError" "'ascii' codec can't encode character".

Definition ascii_only : string -> option Py.exn :=
  fun s => if all_ascii s then None else Some unencodable.

(** A document with a character above 127 in the text of a word, and a
    pipeline that finds it in every text. *)
Definition vecer : Word :=
  {| index := 2; text := "ve" +:+ String "232"%char "er";
     lemma := Some "vecer"; upos := Some "NOUN"; xpos := Some "Ncmsn";
     feats := Some "Case=Nom"; governor := Some 0;
     dependency_relation := Some "root" |}.

Definition vecer_doc : Document :=
  {| sentences := [ {| words := [dober; vecer] |} ] |}.

Definition vecer_nlp : Pipeline := fun _ => Py.Ok vecer_doc.






(** * Properties *)

(** ** Strings and loops *)

Lemma append_cons (x : ascii) (a b : string) :
  String x a +:+ b = String x (a +:+ b).
Proof. reflexivity. Qed.

Lemma append_empty_l (b : string) : "" +:+ b = b.
Proof. reflexivity. Qed.

Lemma append_assoc (a b c : string) : (a +:+ b) +:+ c = a +:+ (b +:+ c).
Proof.
  induction a as [|x a IH]; [reflexivity|].
  rewrite !append_cons. now rewrite IH.
Qed.

Lemma append_empty_r (a : string) : a +:+ "" = a.
Proof.
  induction a as [|x a IH]; [reflexivity|].
  rewrite append_cons. now rewrite IH.
Qed.

Lemma index_app_next {A} (pre : list A) (w nxt : A) (rest : list A) :
  Py.index (pre ++ w :: nxt :: rest) (Z.of_nat (length pre) + 1) = Py.Ok nxt.
Proof.
  unfold Py.index.
  assert (Hlen : length (pre ++ w :: nxt :: rest)
                 = (length pre + S (S (length rest)))%nat)
    by (rewrite length_app; reflexivity).
  rewrite Hlen.
  assert (H0 : (Z.of_nat (length pre) + 1 <? 0) = false)
    by (apply Z.ltb_ge; lia).
  assert (H1 : (Z.of_nat (length pre + S (S (length rest)))
                <=? Z.of_nat (length pre) + 1) = false)
    by (apply Z.leb_gt; lia).
  cbv zeta. rewrite H0. cbv iota. rewrite H0, H1. cbn [orb].
  replace (Z.to_nat (Z.of_nat (length pre) + 1)) with (length pre + 1)%nat
    by lia.
  rewrite lookup_app_r by lia.
  replace (length pre + 1 - length pre)%nat with 1%nat by lia.
  reflexivity.
Qed.

Lemma eqb_upos_PUNCT (w : Word) :
  Py.eqb (Py.of_str (upos w)) (Py.PStr "PUNCT") = is_PUNCT w.
Proof. unfold is_PUNCT. destruct (upos w); reflexivity. Qed.

(** The loop of [get_original_sentence], started at any position of the
    list of words. *)
Lemma original_sentence_loop (suf pre : list Word) (acc : string) :
  Py.for_each (original_sentence_step (pre ++ suf))
    (combine (seq (length pre) (length suf)) suf) acc
  = Py.Ok (acc +:+ spec_original_sentence suf).
Proof.
  revert pre acc. induction suf as [|w rest IH]; intros pre acc.
  - simpl. now rewrite append_empty_r.
  - cbn [length seq combine Py.for_each original_sentence_step].
    specialize (IH (pre ++ [w])).
    rewrite <- app_assoc in IH. cbn [app] in IH.
    rewrite length_app in IH. cbn [length] in IH.
    replace (length pre + 1)%nat with (S (length pre)) in IH by lia.
    destruct rest as [|nxt rest'].
    + rewrite length_app. cbn [length].
      destruct (Z.ltb_spec (Z.of_nat (length pre))
                  (Z.of_nat (length pre + 1) - 1)) as [Hlt|_]; [lia|].
      cbn. now rewrite append_empty_r.
    + rewrite length_app. cbn [length].
      destruct (Z.ltb_spec (Z.of_nat (length pre))
                  (Z.of_nat (length pre + S (S (length rest'))) - 1))
        as [_|Hge]; [|lia].
      rewrite index_app_next. cbn [Py.bind].
      rewrite eqb_upos_PUNCT.
      cbn [spec_original_sentence].
      destruct (is_PUNCT nxt); cbn [Py.bind]; rewrite IH;
        rewrite ?append_assoc; reflexivity.
Qed.

Lemma get_original_sentence_spec (s : Sentence) :
  get_original_sentence s = Py.Ok (spec_original_sentence (words s)).
Proof.
  unfold get_original_sentence, Py.enumerate.
  exact (original_sentence_loop (words s) [] "").
Qed.

(** C1. Sentence reconstruction: for every sentence,
    [get_original_sentence] returns the texts of the words in order, each
    followed by one space unless the next word is tagged [PUNCT] and
    nothing after the last word; the sentence Hello , world ! with the
    tags INTJ, PUNCT, NOUN, PUNCT gives "Hello, world!". *)
Theorem C1_sentence_reconstruction :
  (forall s : Sentence,
     get_original_sentence s = Py.Ok (spec_original_sentence (words s)))
  /\ (forall (w : Word), spec_original_sentence [w] = text w)
  /\ (forall (w nxt : Word) (rest : list Word),
        spec_original_sentence (w :: nxt :: rest)
        = text w +:+ (if is_PUNCT nxt then "" else " ")
          +:+ spec_original_sentence (nxt :: rest))
  /\ get_original_sentence hello_world = Py.Ok "Hello, world!".
Proof.
  split; [exact get_original_sentence_spec|].
  split; [intros w; cbn; now rewrite !append_empty_r|].
  split; [reflexivity|].
  reflexivity.
Qed.

(** ** Serialisation *)

Lemma word_step_eq (cc : list string) (w : Word) :
  word_step (cc, []) w = (cc ++ [word_line w; ""], []).
Proof.
  unfold word_step, word_line, word_fields.
  rewrite <- app_assoc. reflexivity.
Qed.

Lemma word_loop (ws : list Word) (cc : list string) :
  fold_left word_step ws (cc, [])
  = (cc ++ flat_map (fun w => [word_line w; ""]) ws, []).
Proof.
  revert cc. induction ws as [|w ws IH]; intros cc.
  - cbn. now rewrite app_nil_r.
  - cbn [fold_left flat_map]. rewrite word_step_eq, IH.
    now rewrite <- app_assoc.
Qed.

Lemma sentence_step_eq (path : string) (cc : list string) (s : Sentence) :
  sentence_step path cc s = Py.Ok (cc ++ sentence_block path s).
Proof.
  unfold sentence_step. rewrite get_original_sentence_spec. cbn [Py.bind].
  rewrite word_loop. unfold sentence_block, word_records.
  rewrite <- !app_assoc. reflexivity.
Qed.

Lemma sentence_loop (path : string) (ss : list Sentence) (cc : list string) :
  Py.for_each (sentence_step path) ss cc
  = Py.Ok (cc ++ flat_map (sentence_block path) ss).
Proof.
  revert cc. induction ss as [|s ss IH]; intros cc.
  - cbn. now rewrite app_nil_r.
  - cbn [Py.for_each flat_map]. rewrite sentence_step_eq. cbn [Py.bind].
    rewrite IH. now rewrite <- app_assoc.
Qed.

Lemma build_cupt_content_eq (path : string) (doc : Document) :
  build_cupt_content path doc = Py.Ok (cupt_lines path doc).
Proof. unfold build_cupt_content. now rewrite sentence_loop. Qed.

Lemma word_line_in_cupt_lines (path : string) (doc : Document)
    (s : Sentence) (w : Word) :
  In s (sentences doc) -> In w (words s) ->
  In (word_line w) (cupt_lines path doc).
Proof.
  intros Hs Hw. unfold cupt_lines. right.
  apply in_flat_map. exists s. split; [exact Hs|].
  unfold sentence_block. right. right.
  unfold word_records. apply in_flat_map. exists w.
  split; [exact Hw | now left].
Qed.

(** The layout of the lines of a sentence with at least two words: an
    empty line follows the line of every word. *)
Lemma word_records_cons (w : Word) (ws : list Word) :
  word_records {| words := w :: ws |}
  = word_line w :: "" :: word_records {| words := ws |}.
Proof. reflexivity. Qed.

(** C3. Blank lines, on a document of one sentence of two words: the
    program puts an empty line after the line of each word, so that one
    stands between the two word lines of the sentence. *)
Theorem C3_blank_line_after_every_word :
  build_cupt_content "in.txt" two_words_doc
  = Py.Ok [ HEADER;
            "# source_sent_id = . . in.txt";
            "# text = Dober dan";
            word_line dober; "";
            word_line dan; "" ].
Proof. reflexivity. Qed.

(** A sentence without words gets no empty line at all. *)
Lemma sentence_block_no_words (path : string) :
  sentence_block path {| words := [] |}
  = ["# source_sent_id = . . " +:+ path; "# text = "].
Proof. reflexivity. Qed.


Lemma str_default_present (o : option string) (v : string) :
  o = Some v -> Py.str (Py.if_else (Py.of_str o) (Py.PStr "")) = v.
Proof.
  intros ->. unfold Py.if_else. cbn [Py.of_str Py.truthy].
  destruct (String.eqb_spec v ""); cbn; congruence.
Qed.


Lemma int_default_present (o : option Z) (g : Z) :
  o = Some g -> g <> 0 ->
  Py.str (Py.if_else (Py.of_int o) (Py.PStr "")) = pretty g.
Proof.
  intros -> Hg. unfold Py.if_else. cbn [Py.of_int Py.truthy].
  destruct (Z.eqb_spec g 0); [contradiction | reflexivity].
Qed.

(** The eleven fields of the line of a word. *)
Lemma word_fields_eq (w : Word) :
  word_fields w
  = [ pretty (index w);
      text w;
      Py.str (Py.if_else (Py.of_str (lemma w)) (Py.PStr ""));
      Py.str (Py.if_else (Py.of_str (upos w)) (Py.PStr ""));
      Py.str (Py.if_else (Py.of_str (xpos w)) (Py.PStr ""));
      Py.str (Py.if_else (Py.of_str (feats w)) (Py.PStr ""));
      Py.str (Py.if_else (Py.of_int (governor w)) (Py.PStr ""));
      Py.str (Py.if_else (Py.of_str (dependency_relation w)) (Py.PStr ""));
      "_"; "_"; "_" ].
Proof. reflexivity. Qed.

(** A governor other than zero is written in decimal. *)
Lemma head_field_present (w : Word) (g : Z) :
  governor w = Some g -> g <> 0 -> word_fields w !! 6%nat = Some (pretty g).
Proof.
  intros Hg Hne. rewrite word_fields_eq. cbn [lookup list_lookup].
  f_equal. now apply int_default_present.
Qed.

(** *** Splitting a line at the tabs *)

Lemma split_app (c : ascii) (x rest : string) :
  Py.has_char c x = false ->
  Py.split c (x +:+ String c rest) = x :: Py.split c rest.
Proof.
  induction x as [|a x IH]; intros H.
  - rewrite append_empty_l. cbn [Py.split]. now rewrite Ascii.eqb_refl.
  - cbn [Py.has_char] in H. apply orb_false_iff in H. destruct H as [Ha Hx].
    rewrite append_cons. cbn [Py.split]. rewrite Ha, (IH Hx). reflexivity.
Qed.

Lemma split_single (c : ascii) (x : string) :
  Py.has_char c x = false -> Py.split c x = [x].
Proof.
  induction x as [|a x IH]; intros H; [reflexivity|].
  cbn [Py.has_char] in H. apply orb_false_iff in H. destruct H as [Ha Hx].
  cbn [Py.split]. rewrite Ha, (IH Hx). reflexivity.
Qed.

(** Splitting undoes the join of strings that are free of the
    separator. *)
Lemma split_join (c : ascii) (x : string) (l : list string) :
  Forall (fun y => Py.has_char c y = false) (x :: l) ->
  Py.split c (Py.join (String c "") (x :: l)) = x :: l.
Proof.
  revert x. induction l as [|y l IH]; intros x H.
  - cbn [Py.join]. apply split_single. now inversion H.
  - change (Py.join (String c "") (x :: y :: l))
      with (x +:+ String c "" +:+ Py.join (String c "") (y :: l)).
    rewrite append_cons, append_empty_l.
    inversion H as [|? ? Hx Hl]; subst.
    rewrite (split_app c x _ Hx). f_equal. now apply IH.
Qed.

Lemma tab_free_digit (n : N) (s : string) :
  tab_free s -> tab_free (String (pretty_N_char n) s).
Proof.
  unfold tab_free, pretty_N_char. intros H. cbn [Py.has_char]. rewrite H.
  repeat case_match; reflexivity.
Qed.

Lemma tab_free_pretty_N_go (x : N) (s : string) :
  tab_free s -> tab_free (pretty_N_go x s).
Proof.
  revert s. induction (N.lt_wf_0 x) as [x _ IH]; intros s Hs.
  destruct (N.eq_dec x 0%N) as [->|Hx]; [now rewrite pretty_N_go_0|].
  rewrite pretty_N_go_step by lia.
  apply IH; [apply N.div_lt; lia | now apply tab_free_digit].
Qed.

Lemma tab_free_pretty_N (x : N) : tab_free (pretty x).
Proof.
  unfold pretty, pretty_N. destruct (decide (x = 0%N)); [reflexivity|].
  now apply tab_free_pretty_N_go.
Qed.

Lemma tab_free_pretty_Z (z : Z) : tab_free (pretty z).
Proof.
  destruct z as [|p|p]; [reflexivity | apply (tab_free_pretty_N (Npos p)) |].
  change (pretty (Z.neg p)) with ("-" +:+ pretty (Npos p)).
  rewrite append_cons, append_empty_l. unfold tab_free. cbn [Py.has_char].
  apply (tab_free_pretty_N (Npos p)).
Qed.

Lemma tab_free_default (o : option string) :
  attr_tab_free o ->
  tab_free (Py.str (Py.if_else (Py.of_str o) (Py.PStr ""))).
Proof.
  destruct o as [v|]; cbn; [|reflexivity].
  unfold Py.if_else. cbn [Py.truthy].
  now destruct (String.eqb v "").
Qed.

Lemma tab_free_head (o : option Z) :
  tab_free (Py.str (Py.if_else (Py.of_int o) (Py.PStr ""))).
Proof.
  destruct o as [g|]; [|reflexivity].
  unfold Py.if_else. cbn [Py.of_int Py.truthy].
  destruct (g =? 0); [reflexivity | apply tab_free_pretty_Z].
Qed.

(** When no attribute of a word holds a tab, splitting its line at the
    tabs gives back the eleven fields. *)
Lemma word_line_split (w : Word) :
  word_tab_free w ->
  Py.split "009" (word_line w) = word_fields w
  /\ length (Py.split "009" (word_line w)) = 11%nat.
Proof.
  intros (Ht & Hl & Hu & Hx & Hf & Hd).
  assert (E : Py.split "009" (word_line w) = word_fields w).
  { unfold word_line, TAB. rewrite word_fields_eq. apply split_join.
    repeat apply Forall_cons_2; try apply Forall_nil_2;
      first [ apply tab_free_pretty_Z | exact Ht | now apply tab_free_default
            | apply tab_free_head | reflexivity ]. }
  split; [exact E | now rewrite E].
Qed.

Lemma split_nonempty (c : ascii) (s : string) :
  exists x xs, Py.split c s = x :: xs.
Proof.
  induction s as [|a s (x & xs & IH)]; [now exists "", []|].
  cbn [Py.split]. destruct (Ascii.eqb a c); [eauto|].
  rewrite IH. eauto.
Qed.

(** A last field that is free of the separator is the last item of the
    split, whatever stands before it. *)
Lemma split_snoc (c : ascii) (s x : string) :
  Py.has_char c x = false ->
  Py.split c (s +:+ String c x) = Py.split c s ++ [x].
Proof.
  intros Hx. induction s as [|a s IH].
  - rewrite append_empty_l. cbn [Py.split]. rewrite Ascii.eqb_refl.
    now rewrite (split_single c x Hx).
  - rewrite append_cons. cbn [Py.split]. rewrite IH.
    destruct (Ascii.eqb a c); [reflexivity|].
    destruct (split_nonempty c s) as (y & ys & ->). reflexivity.
Qed.

Lemma word_line_ends (w : Word) :
  exists front,
    word_line w
    = ((front +:+ String "009" "_") +:+ String "009" "_")
      +:+ String "009" "_".
Proof.
  exists (Py.join TAB
            [ pretty (index w);
              text w;
              Py.str (Py.if_else (Py.of_str (lemma w)) (Py.PStr ""));
              Py.str (Py.if_else (Py.of_str (upos w)) (Py.PStr ""));
              Py.str (Py.if_else (Py.of_str (xpos w)) (Py.PStr ""));
              Py.str (Py.if_else (Py.of_str (feats w)) (Py.PStr ""));
              Py.str (Py.if_else (Py.of_int (governor w)) (Py.PStr ""));
              Py.str (Py.if_else (Py.of_str (dependency_relation w))
                        (Py.PStr "")) ]).
  unfold word_line. rewrite word_fields_eq.
  cbn [Py.join]. unfold TAB.
  rewrite !append_assoc, !append_cons, !append_empty_l.
  reflexivity.
Qed.

Lemma word_line_last_fields (w : Word) :
  exists front, Py.split "009" (word_line w) = front ++ ["_"; "_"; "_"].
Proof.
  destruct (word_line_ends w) as [front ->].
  exists (Py.split "009" front).
  rewrite !split_snoc by reflexivity.
  now rewrite <- !app_assoc.
Qed.

(** The line of a word with a tab in its text has twelve fields. *)
Lemma C2_tab_in_text_counterexample :
  In tabbed_sentence (sentences tabbed_doc)
  /\ In tabbed (words tabbed_sentence)
  /\ (exists lines,
        build_cupt_content "in.txt" tabbed_doc = Py.Ok lines
        /\ In (word_line tabbed) lines)
  /\ length (Py.split "009" (word_line tabbed)) = 12%nat.
Proof.
  split; [now left|]. split; [now left|].
  split; [|reflexivity].
  eexists. split; [reflexivity|]. right. right. right. now left.
Qed.

(** C2. Column count: the line emitted for any word of any sentence of
    a document is among the lines of the output; its last three fields
    between tabs are the string "_"; and when no attribute of the word
    holds a tab, the line has exactly eleven fields between tabs, the
    ones the program appended. *)
Theorem C2_eleven_columns (path : string) (doc : Document) (s : Sentence)
    (w : Word) :
  In s (sentences doc) -> In w (words s) ->
  exists lines,
    build_cupt_content path doc = Py.Ok lines
    /\ In (word_line w) lines
    /\ (exists front,
          Py.split "009" (word_line w) = front ++ ["_"; "_"; "_"])
    /\ (word_tab_free w ->
        length (Py.split "009" (word_line w)) = 11%nat
        /\ exists id form lem up xp fe head deprel,
             Py.split "009" (word_line w)
             = [id; form; lem; up; xp; fe; head; deprel; "_"; "_"; "_"]).
Proof.
  intros Hs Hw. exists (cupt_lines path doc).
  split; [apply build_cupt_content_eq|].
  split; [now apply word_line_in_cupt_lines with s|].
  split; [apply word_line_last_fields|].
  intros Hfree. destruct (word_line_split w Hfree) as (E & Hlen).
  split; [exact Hlen|].
  rewrite E, word_fields_eq. do 8 eexists. reflexivity.
Qed.

Lemma C2_eleven_columns_witness :
  exists lines,
    build_cupt_content "in.txt" two_words_doc = Py.Ok lines
    /\ In (word_line dan) lines
    /\ (exists front,
          Py.split "009" (word_line dan) = front ++ ["_"; "_"; "_"])
    /\ length (Py.split "009" (word_line dan)) = 11%nat.
Proof.
  destruct (C2_eleven_columns "in.txt" two_words_doc two_words dan)
    as (lines & Hb & Hin & Hlast & Hcount).
  - simpl. left. reflexivity.
  - simpl. right. left. reflexivity.
  - exists lines. split; [exact Hb|]. split; [exact Hin|].
    split; [exact Hlast|].
    apply Hcount. repeat split; reflexivity.
Defined.



(** ** The command line *)

Lemma contains_In (x : string) (l : list string) :
  Py.contains x l = true <-> In x l.
Proof.
  unfold Py.contains. rewrite existsb_exists. split.
  - intros (y & Hy & E). apply String.eqb_eq in E. now subst.
  - intros H. exists x. split; [exact H | apply String.eqb_refl].
Qed.

Lemma contains_not_In (x : string) (l : list string) :
  Py.contains x l = false <-> ~ In x l.
Proof.
  rewrite <- contains_In. destruct (Py.contains x l); split; congruence.
Qed.

Lemma processors_args_given (x : string) (l : list string) :
  processors_args (Some (x :: l))
  = if Py.contains "tokenize" (x :: l) then Py.join "," (x :: l)
    else Py.join "," ((x :: l) ++ ["tokenize"]).
Proof.
  unfold processors_args, checked_processors. cbn [truthy_list andb].
  destruct (Py.contains "tokenize" (x :: l)); reflexivity.
Qed.

(** With [--processors] and no name after it, nothing is appended and
    the default chain is used. *)
Lemma C8_no_names_counterexample :
  ~ In "tokenize" []
  /\ checked_processors (Some []) = Some []
  /\ processors_args (Some []) = "tokenize,mwt,pos,lemma,depparse"
  /\ processors_args (Some []) <> Py.join "," ([] ++ ["tokenize"]).
Proof.
  split; [intros []|].
  split; [reflexivity|].
  split; [reflexivity|].
  discriminate.
Qed.

(** C8. Processor list: when [--processors] comes with at least one
    name and [tokenize] is not among the names, [tokenize] is appended;
    when it comes with names that include [tokenize] the list is kept;
    when it is omitted or comes without a name the stages are the
    default chain; in every case [tokenize] is one of the stages
    configured. *)
Theorem C8_processors_normalised :
  (forall l : list string,
     l <> [] -> ~ In "tokenize" l ->
     checked_processors (Some l) = Some (l ++ ["tokenize"])
     /\ processors_args (Some l) = Py.join "," (l ++ ["tokenize"]))
  /\ (forall l : list string,
        l <> [] -> In "tokenize" l ->
        processors_args (Some l) = Py.join "," l)
  /\ processors_args None = "tokenize,mwt,pos,lemma,depparse"
  /\ processors_args (Some []) = "tokenize,mwt,pos,lemma,depparse"
  /\ (forall ps : option (list string),
        exists stages,
          processors_args ps = Py.join "," stages /\ In "tokenize" stages).
Proof.
  split.
  { intros [|x l] Hne Hnot; [congruence|].
    apply contains_not_In in Hnot.
    split.
    - unfold checked_processors. cbn [truthy_list andb]. now rewrite Hnot.
    - rewrite processors_args_given. now rewrite Hnot. }
  split.
  { intros [|x l] Hne Hin; [congruence|].
    apply contains_In in Hin.
    rewrite processors_args_given. now rewrite Hin. }
  split; [reflexivity|].
  split; [reflexivity|].
  intros [[|x l]|].
  - exists ["tokenize"; "mwt"; "pos"; "lemma"; "depparse"].
    split; [reflexivity | now left].
  - rewrite processors_args_given.
    destruct (Py.contains "tokenize" (x :: l)) eqn:E.
    + exists (x :: l). split; [reflexivity | now apply contains_In].
    + exists ((x :: l) ++ ["tokenize"]).
      split; [reflexivity|]. apply in_or_app. right. now left.
  - exists ["tokenize"; "mwt"; "pos"; "lemma"; "depparse"].
    split; [reflexivity | now left].
Qed.

Lemma C8_processors_normalised_witness :
  processors_args (Some ["pos"]) = "pos,tokenize"
  /\ processors_args (Some ["tokenize"; "pos"]) = "tokenize,pos".
Proof.
  destruct C8_processors_normalised as (Happ & Hkeep & _).
  split.
  - apply (Happ ["pos"]).
    + discriminate.
    + simpl. intros [H | []]. discriminate H.
  - apply (Hkeep ["tokenize"; "pos"]).
    + discriminate.
    + simpl. left. reflexivity.
Defined.

Section CommandLine.

Variable write_error : string -> option Py.exn.
Variable stanfordnlp_Pipeline : string -> string -> Z -> Py.result Pipeline.

Lemma prepare_library_eq (lang procs : string) (b : Z) :
  prepare_library stanfordnlp_Pipeline lang procs b
  = stanfordnlp_Pipeline lang procs b.
Proof.
  unfold prepare_library. now destruct (stanfordnlp_Pipeline lang procs b).
Qed.

(** C10. Batch size: without [--batch] and with [--batch 0] the batch
    size is 1000, any other number is kept, and this value is the one
    the pipeline is constructed with. *)
Theorem C10_batch_size_fallback :
  pos_batch_size_arg None = 1000
  /\ pos_batch_size_arg (Some 0) = 1000
  /\ (forall n : Z,
        pos_batch_size_arg (Some n) = if n =? 0 then 1000 else n)
  /\ (forall (args : Args) (w : World),
        main write_error stanfordnlp_Pipeline args w
        = (nlp <~ io_lift (stanfordnlp_Pipeline (lang args)
                             (processors_args (processors args))
                             (pos_batch_size_arg (batch args))) ;;
           tag_files write_error (source args) (dest args) nlp) w).
Proof.
  split; [reflexivity|].
  split; [reflexivity|].
  split.
  - intros n. unfold pos_batch_size_arg. cbn [Py.truthy].
    now destruct (n =? 0).
  - intros args w. unfold main. now rewrite prepare_library_eq.
Qed.

End CommandLine.

(** ** One file *)

(** What the root logger does with a record. *)
Lemma logging_log_eq (l : level) (msg : string) (w : World) :
  logging_log l msg w = (add_log w (l, msg), Py.Ok tt).
Proof.
  unfold add_log, logging_log. cbn [fst snd].
  now destruct (ROOT_LEVEL <=? levelno l).
Qed.

Lemma fs_add_log (w : World) (entry : level * string) :
  fs (add_log w entry) = fs w.
Proof.
  unfold add_log, logging_log.
  now destruct (ROOT_LEVEL <=? levelno (fst entry)).
Qed.

Lemma add_log_info (w : World) (msg : string) : add_log w (INFO, msg) = w.
Proof. reflexivity. Qed.


Section OneFile.

Variable write_error : string -> option Py.exn.

Lemma set_fs_id (w : World) : set_fs w (fs w) = w.
Proof. now destruct w. Qed.

(** The loop of the writes on an open file. *)
Lemma write_loop (lines : list string) (p c : string) (w : World) :
  fs w !! p = Some (File c) ->
  io_for_each (fun line => file_write write_error p (line +:+ NL)) lines w
  = (set_fs w (<[p := File (c +:+ fst (write_lines write_error lines))]>
                 (fs w)),
     match snd (write_lines write_error lines) with
     | None => Py.Ok tt
     | Some e => Py.Raise e
     end).
Proof.
  revert c w. induction lines as [|line rest IH]; intros c w Hp.
  - cbn. rewrite append_empty_r, insert_id by exact Hp.
    now rewrite set_fs_id.
  - cbn [io_for_each write_lines]. unfold io_bind, file_write at 1.
    destruct (write_error (line +:+ NL)) as [e|].
    + cbn. rewrite append_empty_r, insert_id by exact Hp.
      now rewrite set_fs_id.
    + rewrite Hp.
      rewrite (IH (c +:+ (line +:+ NL))
                 (set_fs w (<[p := File (c +:+ (line +:+ NL))]> (fs w))))
        by (cbn; apply lookup_insert_eq).
      destruct (write_lines write_error rest) as [txt err]. cbn.
      rewrite insert_insert_eq, append_assoc. reflexivity.
Qed.

Lemma write_lines_ok (lines : list string) :
  (forall line, In line lines -> write_error (line +:+ NL) = None) ->
  write_lines write_error lines = (file_text lines, None).
Proof.
  induction lines as [|line rest IH]; intros H; [reflexivity|].
  cbn [write_lines file_text].
  rewrite (H line) by now left.
  rewrite IH by (intros l Hl; apply H; now right).
  reflexivity.
Qed.

Lemma assemble_ok_inv (nlp : Pipeline) (path : string)
    (m : gmap string node) (lines : list string) :
  assemble nlp path m = Py.Ok lines ->
  exists c doc,
    m !! path = Some (File c) /\ nlp c = Py.Ok doc
    /\ lines = cupt_lines path doc.
Proof.
  unfold assemble.
  destruct (m !! path) as [[c|es]|] eqn:Hm; try discriminate.
  destruct (nlp c) as [doc|e] eqn:Hn; cbn [Py.bind]; try discriminate.
  rewrite build_cupt_content_eq. intros H.
  exists c, doc. split; [reflexivity|]. split; [exact Hn|]. congruence.
Qed.

Lemma assemble_File (nlp : Pipeline) (path c : string) (doc : Document)
    (m : gmap string node) :
  m !! path = Some (File c) -> nlp c = Py.Ok doc ->
  assemble nlp path m = Py.Ok (cupt_lines path doc).
Proof.
  intros Hm Hn. unfold assemble. rewrite Hm, Hn. cbn.
  apply build_cupt_content_eq.
Qed.

(** The iteration for one file never raises, and its effect is
    [tag_file_result]. *)
Lemma tag_file_eq (destination : string) (nlp : Pipeline) (path : string)
    (w : World) :
  tag_file write_error destination nlp path w
  = (tag_file_result write_error destination nlp path w, Py.Ok tt).
Proof.
  unfold tag_file, tag_file_result, out_file_of.
  set (filename := filename_of path).
  set (out := os_path.join destination (filename +:+ ".cupt")).
  unfold io_bind at 1, os_path_exists.
  destruct (bool_decide (is_Some (fs w !! out))) eqn:Hex; [reflexivity|].
  apply bool_decide_eq_false in Hex.
  assert (Hout : fs w !! out = None).
  { destruct (fs w !! out) eqn:E; [|reflexivity]. exfalso. apply Hex. eauto. }
  unfold try_except, convert_file, io_bind, open_read, io_lift, assemble.
  destruct (fs w !! path) as [[c|es]|]; try reflexivity.
  destruct (nlp c) as [doc|e]; [|reflexivity].
  cbn [Py.bind]. rewrite !build_cupt_content_eq.
  unfold open_write, open_error, created.
  destruct (os_path.split out) as [head tail] eqn:Hsplit. cbn [fst snd].
  rewrite Hout.
  destruct (fs w !! head) as [[hc|entries]|]; try reflexivity.
  rewrite (write_loop _ out "") by (cbn; apply lookup_insert_eq).
  cbn [set_fs fs log]. rewrite append_empty_l, !insert_insert_eq.
  destruct (snd (write_lines write_error (cupt_lines path doc)));
    reflexivity.
Qed.

End OneFile.

(** ** The outcome of one file, case by case *)

Section Cases.

Variable write_error : string -> option Py.exn.
Variables (destination : string) (nlp : Pipeline).

Local Abbreviation result_of := (tag_file_result write_error destination nlp).
Local Abbreviation out_of := (out_file_of destination).

Lemma not_is_Some_None {A} (o : option A) : ~ is_Some o -> o = None.
Proof. destruct o; [intros H; exfalso; apply H; eauto | reflexivity]. Qed.

Lemma result_present (path : string) (w : World) :
  is_Some (fs w !! out_of path) ->
  result_of path w = add_log w (exists_entry (filename_of path)).
Proof.
  intros H. unfold tag_file_result.
  now rewrite bool_decide_eq_true_2 by exact H.
Qed.

Lemma result_not_assembled (path : string) (w : World) (e : Py.exn) :
  fs w !! out_of path = None ->
  assemble nlp path (fs w) = Py.Raise e ->
  result_of path w = add_log w (error_entry (filename_of path) e).
Proof.
  intros Hout Ha. unfold tag_file_result.
  rewrite bool_decide_eq_false_2
    by (rewrite Hout; intros [x Hx]; discriminate).
  now rewrite Ha.
Qed.

Lemma open_error_no_dir (m : gmap string node) (path : string) :
  (forall es, m !! fst (os_path.split path) <> Some (Dir es)) ->
  exists e, open_error m path = Some e.
Proof.
  intros H. unfold open_error.
  destruct (m !! path) as [[c|es]|];
    destruct (m !! fst (os_path.split path)) as [[c'|es']|] eqn:E;
    try (exfalso; now apply (H es')); eauto.
Qed.

Lemma open_error_dir (m : gmap string node) (path : string)
    (es : list string) :
  m !! path = None -> m !! fst (os_path.split path) = Some (Dir es) ->
  open_error m path = None.
Proof. intros Hp Hd. unfold open_error. now rewrite Hp, Hd. Qed.

Lemma result_not_opened (path : string) (w : World) (lines : list string) :
  fs w !! out_of path = None ->
  assemble nlp path (fs w) = Py.Ok lines ->
  (forall es, fs w !! out_dir_of destination path <> Some (Dir es)) ->
  exists e,
    result_of path w = add_log w (error_entry (filename_of path) e).
Proof.
  intros Hout Ha Hd. unfold tag_file_result.
  rewrite bool_decide_eq_false_2
    by (rewrite Hout; intros [x Hx]; discriminate).
  rewrite Ha.
  destruct (open_error_no_dir (fs w) (out_of path) Hd) as [e He].
  exists e. now rewrite He.
Qed.

Lemma result_written (path : string) (w : World) (lines es : list string) :
  fs w !! out_of path = None ->
  assemble nlp path (fs w) = Py.Ok lines ->
  fs w !! out_dir_of destination path = Some (Dir es) ->
  result_of path w
  = add_log
      {| fs := <[out_of path := File (fst (write_lines write_error lines))]>
                 (<[out_dir_of destination path :=
                      Dir (add_entry (snd (os_path.split (out_of path))) es)]>
                    (fs w));
         log := log w |}
      match snd (write_lines write_error lines) with
      | None => processed_entry (filename_of path) (out_of path)
      | Some e => error_entry (filename_of path) e
      end.
Proof.
  intros Hout Ha Hd. unfold tag_file_result.
  rewrite bool_decide_eq_false_2
    by (rewrite Hout; intros [x Hx]; discriminate).
  rewrite Ha, (open_error_dir _ _ es Hout Hd).
  unfold created. unfold out_dir_of in Hd. rewrite Hd.
  now rewrite insert_insert_eq.
Qed.

(** The four cases are all the cases. *)
Lemma result_cases (path : string) (w : World) :
  (is_Some (fs w !! out_of path)
   /\ result_of path w = add_log w (exists_entry (filename_of path)))
  \/ (fs w !! out_of path = None
      /\ exists e,
           result_of path w = add_log w (error_entry (filename_of path) e)
           /\ (assemble nlp path (fs w) = Py.Raise e
               \/ forall es,
                    fs w !! out_dir_of destination path <> Some (Dir es)))
  \/ (fs w !! out_of path = None
      /\ exists lines es entry,
           assemble nlp path (fs w) = Py.Ok lines
           /\ fs w !! out_dir_of destination path = Some (Dir es)
           /\ result_of path w
              = add_log
                  {| fs := <[out_of path :=
                               File (fst (write_lines write_error lines))]>
                             (<[out_dir_of destination path :=
                                  Dir (add_entry
                                         (snd (os_path.split (out_of path)))
                                         es)]>
                                (fs w));
                     log := log w |}
                  entry).
Proof.
  destruct (fs w !! out_of path) as [n|] eqn:Hout.
  { left. split; [eauto|]. apply result_present. rewrite Hout. eauto. }
  right.
  destruct (assemble nlp path (fs w)) as [lines|e] eqn:Ha.
  - destruct (fs w !! out_dir_of destination path) as [[c|es]|] eqn:Hd.
    + left. split; [reflexivity|].
      destruct (result_not_opened path w lines Hout Ha) as [e He].
      { intros es; congruence. }
      exists e. split; [exact He|]. right. intros es; congruence.
    + right. split; [reflexivity|]. exists lines, es. eexists.
      split; [reflexivity|]. split; [reflexivity|].
      now apply result_written.
    + left. split; [reflexivity|].
      destruct (result_not_opened path w lines Hout Ha) as [e He].
      { intros es; congruence. }
      exists e. split; [exact He|]. right. intros es; congruence.
  - left. split; [reflexivity|]. exists e.
    split; [now apply result_not_assembled | now left].
Qed.

End Cases.

(** ** Later states of the file system *)

Lemma future_refl (m : gmap string node) : future m m.
Proof. intros p. repeat split; eauto. Qed.

Lemma future_trans (m1 m2 m3 : gmap string node) :
  future m1 m2 -> future m2 m3 -> future m1 m3.
Proof.
  intros H12 H23 p.
  destruct (H12 p) as (F12 & D12 & B12).
  destruct (H23 p) as (F23 & D23 & B23).
  split; [|split].
  - intros c H. apply F23, F12, H.
  - intros es H. destruct (D12 es H) as [es2 H2]. eapply D23, H2.
  - intros es H. destruct (B23 es H) as [es2 H2]. eapply B12, H2.
Qed.

Lemma future_is_Some (m m' : gmap string node) (p : string) :
  future m m' -> is_Some (m !! p) -> is_Some (m' !! p).
Proof.
  intros H [n Hn]. destruct (H p) as (F & D & _).
  destruct n as [c|es].
  - rewrite (F c Hn). eauto.
  - destruct (D es Hn) as [es' ->]. eauto.
Qed.


(** The file system after a file was created in a directory and
    written. *)
Lemma future_written (m : gmap string node) (out dir txt : string)
    (es es' : list string) :
  m !! out = None -> m !! dir = Some (Dir es) ->
  future m (<[out := File txt]> (<[dir := Dir es']> m)).
Proof.
  intros Hout Hdir p.
  assert (Hne : out <> dir) by congruence.
  destruct (decide (p = out)) as [->|Hpo].
  { rewrite lookup_insert_eq, Hout.
    repeat split; intros; congruence. }
  rewrite lookup_insert_ne by congruence.
  destruct (decide (p = dir)) as [->|Hpd].
  { rewrite lookup_insert_eq, Hdir.
    split; [intros; congruence|]. split; intros; eauto. }
  rewrite lookup_insert_ne by congruence.
  repeat split; eauto.
Qed.


Section Loop.

Variable write_error : string -> option Py.exn.
Variables (destination : string) (nlp : Pipeline).

Local Abbreviation result_of := (tag_file_result write_error destination nlp).
Local Abbreviation results_of :=
  (tag_files_result write_error destination nlp).
Local Abbreviation out_of := (out_file_of destination).

Lemma result_future (path : string) (w : World) :
  future (fs w) (fs (result_of path w)).
Proof.
  destruct (result_cases write_error destination nlp path w)
    as [(_ & ->) | [(_ & e & -> & _) | (Hout & lines & es & entry & _ & Hd & ->)]];
    rewrite fs_add_log; cbn [fs]; try apply future_refl.
  now apply future_written with es.
Qed.

Lemma results_cons (path : string) (files : list string) (w : World) :
  results_of (path :: files) w = results_of files (result_of path w).
Proof. reflexivity. Qed.

Lemma results_future (files : list string) (w : World) :
  future (fs w) (fs (results_of files w)).
Proof.
  revert w. induction files as [|f rest IH]; intros w.
  - apply future_refl.
  - rewrite results_cons.
    eapply future_trans; [apply result_future | apply IH].
Qed.

(** The loop over the files never raises. *)
Lemma loop_eq (files : list string) (w : World) :
  io_for_each (tag_file write_error destination nlp) files w
  = (results_of files w, Py.Ok tt).
Proof.
  revert w. induction files as [|f rest IH]; intros w; [reflexivity|].
  cbn [io_for_each]. unfold io_bind. rewrite tag_file_eq.
  rewrite IH. reflexivity.
Qed.

Lemma tag_files_eq (source : string) (names : list string) (w : World) :
  fs w !! source = Some (Dir names) ->
  tag_files write_error source destination nlp w
  = (results_of (map (os_path.join source) names) w, Py.Ok tt).
Proof.
  intros Hs. unfold tag_files, io_bind, os_listdir. rewrite Hs.
  apply loop_eq.
Qed.


(** A path that is nobody's output file stays absent. *)
Lemma result_frame_None (path p : string) (w : World) :
  fs w !! p = None -> p <> out_of path ->
  fs (result_of path w) !! p = None.
Proof.
  intros Hp Hne.
  destruct (result_cases write_error destination nlp path w)
    as [(_ & ->) | [(_ & e & -> & _) | (Hout & lines & es & entry & _ & Hd & ->)]];
    rewrite fs_add_log; cbn [fs]; try exact Hp.
  rewrite lookup_insert_ne by congruence.
  rewrite lookup_insert_ne by congruence.
  exact Hp.
Qed.


End Loop.

(** ** The batch *)

Section Batch.

Variable write_error : string -> option Py.exn.
Variables (destination : string) (nlp : Pipeline).

Local Abbreviation result_of := (tag_file_result write_error destination nlp).
Local Abbreviation results_of :=
  (tag_files_result write_error destination nlp).
Local Abbreviation out_of := (out_file_of destination).
Local Abbreviation cases := (result_cases write_error destination nlp).




End Batch.


Section Present.

Variable write_error : string -> option Py.exn.
Variables (destination : string) (nlp : Pipeline).





End Present.

(** ** The converter *)

Section Rerun.

Variable write_error : string -> option Py.exn.
Variables (destination : string) (nlp : Pipeline).

Local Abbreviation out_of := (out_file_of destination).

(** The statements before [open(out_file, "w")] leave the world as it
    is, and give what [assemble] describes. *)
Lemma assemble_eq (path : string) (w : World) :
  (file_content <~ open_read path ;;
   doc <~ io_lift (nlp file_content) ;;
   io_lift (build_cupt_content path doc)) w
  = (w, assemble nlp path (fs w)).
Proof.
  unfold io_bind, open_read, io_lift, assemble.
  destruct (fs w !! path) as [[c|es]|]; try reflexivity.
  now destruct (nlp c).
Qed.

Lemma assemble_fails (path : string) (m : gmap string node) :
  (forall c, m !! path <> Some (File c))
  \/ (exists c e, m !! path = Some (File c) /\ nlp c = Py.Raise e) ->
  exists e, assemble nlp path m = Py.Raise e.
Proof.
  unfold assemble. intros [Hno | (c & e & Hc & Hn)].
  - destruct (m !! path) as [[c|es]|]; eauto.
    exfalso. now apply (Hno c).
  - rewrite Hc, Hn. eauto.
Qed.


(** C7. Output on error: when the reading of the file or the pipeline
    fails, the iteration ends without a change to the file system, so
    that no output file is created; and whenever an iteration creates
    or changes the output file, the file was read, the pipeline
    returned, all the lines were assembled, and the file holds the lines
    written before the first error of a write, that is all of them when
    no write fails. *)
Theorem C7_no_output_on_early_failure :
  (forall (path : string) (w : World),
     (forall c, fs w !! path <> Some (File c))
     \/ (exists c e, fs w !! path = Some (File c) /\ nlp c = Py.Raise e) ->
     exists w',
       tag_file write_error destination nlp path w = (w', Py.Ok tt)
       /\ fs w' = fs w)
  /\ (forall (path : string) (w w' : World) (r : Py.result unit),
        tag_file write_error destination nlp path w = (w', r) ->
        fs w' !! out_file_of destination path
        <> fs w !! out_file_of destination path ->
        exists c doc lines,
          fs w !! path = Some (File c)
          /\ nlp c = Py.Ok doc
          /\ build_cupt_content path doc = Py.Ok lines
          /\ fs w' !! out_file_of destination path
             = Some (File (fst (write_lines write_error lines)))
          /\ ((forall line, In line lines ->
                 write_error (line +:+ NL) = None) ->
              fs w' !! out_file_of destination path
              = Some (File (file_text lines)))).
Proof.
  split.
  - intros path w Hfail. rewrite tag_file_eq. eexists. split; [reflexivity|].
    destruct (assemble_fails path (fs w) Hfail) as [e He].
    destruct (result_cases write_error destination nlp path w)
      as [(_ & ->) | [(_ & e' & -> & _) | (_ & lines & es & entry & Ha & _)]];
      try apply fs_add_log.
    congruence.
  - intros path w w' r Hrun Hdiff. rewrite tag_file_eq in Hrun.
    injection Hrun as <- _.
    destruct (result_cases write_error destination nlp path w)
      as [(_ & Hr) | [(_ & e' & Hr & _) | (_ & lines & es & entry & Ha & _ & Hr)]];
      rewrite Hr in Hdiff |- *; rewrite fs_add_log in Hdiff |- *;
      cbn [fs] in Hdiff |- *; try congruence.
    destruct (assemble_ok_inv nlp path (fs w) lines Ha)
      as (c & doc & Hc & Hn & ->).
    exists c, doc, (cupt_lines path doc).
    split; [exact Hc|]. split; [exact Hn|].
    split; [apply build_cupt_content_eq|].
    split; [apply lookup_insert_eq|].
    intros Hok. rewrite (write_lines_ok write_error _ Hok).
    apply lookup_insert_eq.
Qed.

End Rerun.

Section Isolation.

Variable write_error : string -> option Py.exn.
Variables (destination : string) (nlp : Pipeline).


(** C9. Structure of the output: the lines assembled for a document
    are the header followed by the blocks of its sentences in order; the
    block of a sentence is the comment with the path, the comment with
    the reconstructed text and then the lines for its words; and the
    file written for a converted input holds these lines, the header
    first, each followed by an end of line. *)
Theorem C9_output_structure :
  (forall (path : string) (doc : Document),
     build_cupt_content path doc
     = Py.Ok (HEADER :: flat_map (sentence_block path) (sentences doc)))
  /\ HEADER
     = "# global.columns = ID FORM LEMMA UPOS XPOS FEATS HEAD DEPREL DEPS MISC PARSEME:MWE"
  /\ (forall (path : string) (s : Sentence),
        exists t,
          get_original_sentence s = Py.Ok t
          /\ sentence_block path s
             = ("# source_sent_id = . . " +:+ path)
               :: ("# text = " +:+ t)
               :: flat_map (fun w => [word_line w; ""]) (words s))
  /\ (forall (path c : string) (doc : Document) (es : list string)
             (w : World),
        fs w !! out_file_of destination path = None ->
        fs w !! path = Some (File c) ->
        nlp c = Py.Ok doc ->
        fs w !! out_dir_of destination path = Some (Dir es) ->
        (forall line,
           In line (HEADER :: flat_map (sentence_block path) (sentences doc)) ->
           write_error (line +:+ NL) = None) ->
        exists w',
          tag_file write_error destination nlp path w = (w', Py.Ok tt)
          /\ fs w' !! out_file_of destination path
             = Some (File ((HEADER +:+ NL)
                           +:+ file_text
                                 (flat_map (sentence_block path)
                                    (sentences doc))))).
Proof.
  split; [exact build_cupt_content_eq|].
  split; [reflexivity|].
  split.
  - intros path s. exists (spec_original_sentence (words s)).
    split; [apply get_original_sentence_spec | reflexivity].
  - intros path c doc es w Hout Hc Hn Hd Hw.
    rewrite tag_file_eq. eexists. split; [reflexivity|].
    rewrite (result_written write_error destination nlp path w
               (cupt_lines path doc) es Hout
               (assemble_File nlp path c doc (fs w) Hc Hn) Hd).
    rewrite fs_add_log. cbn [fs]. rewrite lookup_insert_eq.
    now rewrite (write_lines_ok write_error (cupt_lines path doc) Hw).
Qed.

End Isolation.

(** ** The properties on the small world *)

Lemma small_listing :
  fs small_world !! "src" = Some (Dir ["a.txt"; "b.txt"]).
Proof. vm_compute. reflexivity. Qed.

Lemma small_run :
  tag_files no_write_error "src" "out" small_nlp small_world
  = (small_world_after, Py.Ok tt).
Proof. vm_compute. reflexivity. Qed.





(** In the small world the file [b] leaves the file system as it was,
    and the output of the file [a] appears with all its lines. *)
Lemma C7_no_output_on_early_failure_witness :
  (exists w',
     tag_file no_write_error "out" small_nlp "src/b.txt" small_world
     = (w', Py.Ok tt)
     /\ fs w' = fs small_world)
  /\ exists c doc lines,
       fs small_world !! "src/a.txt" = Some (File c)
       /\ small_nlp c = Py.Ok doc
       /\ build_cupt_content "src/a.txt" doc = Py.Ok lines
       /\ fs (fst (tag_file no_write_error "out" small_nlp "src/a.txt"
                     small_world)) !! out_file_of "out" "src/a.txt"
          = Some (File (fst (write_lines no_write_error lines)))
       /\ ((forall line, In line lines ->
              no_write_error (line +:+ NL) = None) ->
           fs (fst (tag_file no_write_error "out" small_nlp "src/a.txt"
                      small_world)) !! out_file_of "out" "src/a.txt"
           = Some (File (file_text lines))).
Proof.
  destruct (C7_no_output_on_early_failure no_write_error "out" small_nlp)
    as (Hearly & Hlate).
  split.
  - apply (Hearly "src/b.txt" small_world).
    right. exists "", refused. split; vm_compute; reflexivity.
  - apply (Hlate "src/a.txt" small_world _ (Py.Ok tt)).
    + vm_compute. reflexivity.
    + vm_compute. discriminate.
Defined.

(** The output of the file [a] of the small world. *)
Lemma C9_output_structure_witness :
  exists w',
    tag_file no_write_error "out" small_nlp "src/a.txt" small_world
    = (w', Py.Ok tt)
    /\ fs w' !! out_file_of "out" "src/a.txt"
       = Some (File ((HEADER +:+ NL)
                     +:+ file_text
                           (flat_map (sentence_block "src/a.txt")
                              (sentences two_words_doc)))).
Proof.
  destruct (C9_output_structure no_write_error "out" small_nlp)
    as (_ & _ & _ & Hfile).
  apply (Hfile "src/a.txt" "Dober dan" two_words_doc [] small_world).
  - vm_compute. reflexivity.
  - vm_compute. reflexivity.
  - reflexivity.
  - vm_compute. reflexivity.
  - intros line _. reflexivity.
Defined.

(** * Further properties *)

(** ** Sentence reconstruction *)

Lemma string_length_append (a b : string) :
  String.length (a +:+ b) = (String.length a + String.length b)%nat.
Proof.
  induction a as [|x a IH]; [reflexivity|].
  rewrite append_cons. cbn [String.length]. now rewrite IH.
Qed.

Lemma spec_original_sentence_app (a : list Word) (w : Word) (b : list Word) :
  a <> [] ->
  spec_original_sentence (a ++ w :: b)
  = spec_original_sentence a +:+ (if is_PUNCT w then "" else " ")
    +:+ spec_original_sentence (w :: b).
Proof.
  induction a as [|x a IH]; intros Hne; [congruence|].
  destruct a as [|y a].
  - cbn [app spec_original_sentence].
    rewrite !append_empty_l, !append_assoc. reflexivity.
  - change ((x :: y :: a) ++ w :: b) with (x :: (y :: a) ++ w :: b).
    change (spec_original_sentence (x :: (y :: a) ++ w :: b))
      with (text x +:+ (if is_PUNCT y then "" else " ")
            +:+ spec_original_sentence ((y :: a) ++ w :: b)).
    rewrite IH by discriminate.
    change (spec_original_sentence (x :: y :: a))
      with (text x +:+ (if is_PUNCT y then "" else " ")
            +:+ spec_original_sentence (y :: a)).
    rewrite !append_assoc. reflexivity.
Qed.

(** X1. The reconstruction of a sentence cut in two non-empty parts is
    the reconstruction of the first part, a space unless the second
    part begins with a word tagged [PUNCT], and the reconstruction of
    the second part. *)
Theorem X1_reconstruction_composes (a : list Word) (w : Word)
    (b : list Word) (ta tb : string) :
  a <> [] ->
  get_original_sentence {| words := a |} = Py.Ok ta ->
  get_original_sentence {| words := w :: b |} = Py.Ok tb ->
  get_original_sentence {| words := a ++ w :: b |}
  = Py.Ok (ta +:+ (if is_PUNCT w then "" else " ") +:+ tb).
Proof.
  intros Hne Ha Hb. rewrite get_original_sentence_spec in Ha, Hb |- *.
  cbn [words] in *. injection Ha as <-. injection Hb as <-.
  now rewrite spec_original_sentence_app.
Qed.

Lemma X1_reconstruction_composes_witness :
  get_original_sentence
    {| words := [mkWord 1 "Hello" "INTJ"; mkWord 2 "," "PUNCT"]
                ++ mkWord 3 "world" "NOUN" :: [mkWord 4 "!" "PUNCT"] |}
  = Py.Ok ("Hello," +:+ " " +:+ "world!").
Proof.
  apply (X1_reconstruction_composes
           [mkWord 1 "Hello" "INTJ"; mkWord 2 "," "PUNCT"]
           (mkWord 3 "world" "NOUN") [mkWord 4 "!" "PUNCT"]
           "Hello," "world!").
  - discriminate.
  - reflexivity.
  - reflexivity.
Defined.

Lemma spec_original_sentence_ext (ws ws' : list Word) :
  map text ws = map text ws' ->
  map is_PUNCT (tail ws) = map is_PUNCT (tail ws') ->
  spec_original_sentence ws = spec_original_sentence ws'.
Proof.
  revert ws'. induction ws as [|w ws IH]; intros [|w' ws'] Ht Hp;
    try discriminate; [reflexivity|].
  cbn [map tail] in Ht, Hp. injection Ht as Hw Ht.
  cbn [spec_original_sentence]. rewrite Hw.
  destruct ws as [|x ws]; destruct ws' as [|x' ws']; try discriminate;
    [reflexivity|].
  cbn [map] in Hp. injection Hp as Hx Hp. rewrite Hx.
  rewrite (IH (x' :: ws')); [reflexivity | exact Ht | exact Hp].
Qed.

(** X2. The reconstruction depends only on the texts of the words and
    on which words after the first are tagged [PUNCT]: the tag of the
    first word and all other attributes never change it. *)
Theorem X2_reconstruction_reads_texts_and_tags (s s' : Sentence) :
  map text (words s) = map text (words s') ->
  map is_PUNCT (tail (words s)) = map is_PUNCT (tail (words s')) ->
  get_original_sentence s = get_original_sentence s'.
Proof.
  intros Ht Hp. rewrite !get_original_sentence_spec. f_equal.
  now apply spec_original_sentence_ext.
Qed.

(** A bracket tagged [PUNCT] at the head of a sentence is followed by
    a space like any other first word. *)
Lemma X2_reconstruction_reads_texts_and_tags_witness :
  get_original_sentence
    {| words := [mkWord 1 "(" "PUNCT"; mkWord 2 "a" "NOUN"] |}
  = get_original_sentence {| words := [plain 7 "("; dan_as "a"] |}.
Proof.
  apply X2_reconstruction_reads_texts_and_tags; reflexivity.
Defined.

Lemma spec_original_sentence_length (ws : list Word) :
  String.length (spec_original_sentence ws)
  = (text_length ws + space_count ws)%nat.
Proof.
  induction ws as [|w ws IH]; [reflexivity|].
  cbn [spec_original_sentence]. rewrite !string_length_append, IH.
  unfold text_length, space_count.
  destruct ws as [|x ws]; [simpl; lia|].
  simpl. destruct (is_PUNCT x); simpl; lia.
Qed.

(** X3. The reconstructed text has as many characters as the texts of
    the words together, plus one for each word after the first that is
    not tagged [PUNCT]. *)
Theorem X3_reconstruction_length (s : Sentence) (t : string) :
  get_original_sentence s = Py.Ok t ->
  String.length t = (text_length (words s) + space_count (words s))%nat.
Proof.
  rewrite get_original_sentence_spec. intros [= <-].
  apply spec_original_sentence_length.
Qed.

Lemma X3_reconstruction_length_witness :
  String.length "Hello, world!"
  = (text_length (words hello_world) + space_count (words hello_world))%nat.
Proof. apply (X3_reconstruction_length hello_world). reflexivity. Defined.

(** ** Serialisation *)

(** X4. When no attribute of a word holds a tab, splitting the line of
    the word at the tabs gives back its fields, eleven of them. *)
Theorem X4_line_splits_into_fields (w : Word) :
  word_tab_free w ->
  Py.split "009" (word_line w) = word_fields w
  /\ length (Py.split "009" (word_line w)) = 11%nat.
Proof. apply word_line_split. Qed.

Lemma X4_line_splits_into_fields_witness :
  Py.split "009" (word_line dan) = word_fields dan
  /\ length (Py.split "009" (word_line dan)) = 11%nat.
Proof.
  apply (X4_line_splits_into_fields dan).
  repeat split; reflexivity.
Defined.

(** X5. The field HEAD: a governor other than zero is written as its
    decimal numeral, two such governors with the same field are equal,
    and a word without governor has the same field as a word with the
    governor zero. *)
Theorem X5_head_field (w w' : Word) :
  (forall g, governor w = Some g -> g <> 0 ->
     word_fields w !! 6%nat = Some (pretty g))
  /\ (forall g g',
        governor w = Some g -> governor w' = Some g' ->
        g <> 0 -> g' <> 0 ->
        word_fields w !! 6%nat = word_fields w' !! 6%nat -> g = g')
  /\ (governor w = None -> governor w' = Some 0 ->
      word_fields w !! 6%nat = word_fields w' !! 6%nat).
Proof.
  split; [|split].
  - intros g Hg Hne. now apply head_field_present.
  - intros g g' Hg Hg' Hne Hne' E.
    rewrite (head_field_present w g Hg Hne) in E.
    rewrite (head_field_present w' g' Hg' Hne') in E.
    injection E as E. exact (pretty_Z_inj g g' E).
  - intros Hn Hz. rewrite !word_fields_eq. cbn [lookup list_lookup].
    now rewrite Hn, Hz.
Qed.

Lemma X5_head_field_witness :
  word_fields dober !! 6%nat = Some "2"
  /\ word_fields (plain 1 "x") !! 6%nat = word_fields dan !! 6%nat.
Proof.
  destruct (X5_head_field dober dober) as (Hnum & _ & _).
  destruct (X5_head_field (plain 1 "x") dan) as (_ & _ & Hzero).
  split.
  - apply (Hnum 2); [reflexivity | discriminate].
  - apply Hzero; reflexivity.
Defined.

(** X7. The fields ID and FORM are the index in decimal and the text,
    and an attribute that is present is written as it is. *)
Theorem X7_present_attributes_verbatim (w : Word) :
  word_fields w !! 0%nat = Some (pretty (index w))
  /\ word_fields w !! 1%nat = Some (text w)
  /\ (forall v, lemma w = Some v -> word_fields w !! 2%nat = Some v)
  /\ (forall v, upos w = Some v -> word_fields w !! 3%nat = Some v)
  /\ (forall v, xpos w = Some v -> word_fields w !! 4%nat = Some v)
  /\ (forall v, feats w = Some v -> word_fields w !! 5%nat = Some v)
  /\ (forall v, dependency_relation w = Some v ->
        word_fields w !! 7%nat = Some v).
Proof.
  rewrite word_fields_eq. cbn [lookup list_lookup].
  repeat split; intros v Hv; f_equal; now apply str_default_present.
Qed.

Lemma X7_present_attributes_verbatim_witness :
  word_fields dan !! 2%nat = Some "dan"
  /\ word_fields dan !! 3%nat = Some "NOUN"
  /\ word_fields dan !! 4%nat = Some "Ncmsn"
  /\ word_fields dan !! 5%nat = Some "Case=Nom"
  /\ word_fields dan !! 7%nat = Some "root".
Proof.
  destruct (X7_present_attributes_verbatim dan)
    as (_ & _ & H2 & H3 & H4 & H5 & H7).
  split; [apply H2; reflexivity|].
  split; [apply H3; reflexivity|].
  split; [apply H4; reflexivity|].
  split; [apply H5; reflexivity|].
  apply H7; reflexivity.
Defined.

Lemma append_nonempty_l (a b : string) : a <> "" -> a +:+ b <> "".
Proof. destruct a; [congruence | rewrite append_cons; discriminate]. Qed.

Lemma append_nonempty_r (a : string) (c : ascii) (b : string) :
  a +:+ String c b <> "".
Proof.
  destruct a; [rewrite append_empty_l | rewrite append_cons]; discriminate.
Qed.

Lemma word_line_nonempty (w : Word) : word_line w <> "".
Proof.
  unfold word_line. rewrite word_fields_eq.
  change (Py.join TAB (?x :: ?y :: ?l)) with (x +:+ TAB +:+ Py.join TAB (y :: l)).
  unfold TAB at 1. rewrite append_cons. apply append_nonempty_r.
Qed.

Lemma word_records_length (ws : list Word) :
  length (flat_map (fun w => [word_line w; ""]) ws) = (2 * length ws)%nat.
Proof. induction ws as [|w ws IH]; [reflexivity|]. simpl in *. lia. Qed.

Lemma word_records_empty_lines (ws : list Word) :
  empty_lines (flat_map (fun w => [word_line w; ""]) ws) = length ws.
Proof.
  unfold empty_lines. induction ws as [|w ws IH]; [reflexivity|].
  cbn [flat_map app length].
  rewrite count_occ_cons_neq by apply word_line_nonempty.
  rewrite count_occ_cons_eq by reflexivity. now rewrite IH.
Qed.

Lemma blocks_length (path : string) (ss : list Sentence) :
  length (flat_map (sentence_block path) ss)
  = (2 * length ss + 2 * length (flat_map words ss))%nat.
Proof.
  induction ss as [|s ss IH]; [reflexivity|].
  cbn [flat_map]. rewrite !length_app, IH.
  unfold sentence_block, word_records. cbn [length].
  rewrite word_records_length. lia.
Qed.

Lemma blocks_empty_lines (path : string) (ss : list Sentence) :
  empty_lines (flat_map (sentence_block path) ss)
  = length (flat_map words ss).
Proof.
  unfold empty_lines. induction ss as [|s ss IH]; [reflexivity|].
  cbn [flat_map]. rewrite count_occ_app, length_app, IH.
  unfold sentence_block, word_records.
  rewrite count_occ_cons_neq by (apply append_nonempty_l; discriminate).
  rewrite count_occ_cons_neq by (apply append_nonempty_l; discriminate).
  fold (empty_lines (flat_map (fun w => [word_line w; ""]) (words s))).
  now rewrite word_records_empty_lines.
Qed.

(** X6. The output of a document has one line for the header, two for
    each sentence and two for each word; as many of its lines are empty
    as the document has words. *)
Theorem X6_line_counts (path : string) (doc : Document)
    (lines : list string) :
  build_cupt_content path doc = Py.Ok lines ->
  length lines
  = (1 + 2 * length (sentences doc) + 2 * word_count doc)%nat
  /\ empty_lines lines = word_count doc.
Proof.
  rewrite build_cupt_content_eq. intros [= <-].
  unfold cupt_lines, word_count. split.
  - cbn [length]. rewrite blocks_length. lia.
  - unfold empty_lines.
    rewrite count_occ_cons_neq by discriminate.
    apply blocks_empty_lines.
Qed.

Lemma X6_line_counts_witness :
  length (cupt_lines "in.txt" two_words_doc) = 7%nat
  /\ empty_lines (cupt_lines "in.txt" two_words_doc) = 2%nat.
Proof.
  apply (X6_line_counts "in.txt" two_words_doc). reflexivity.
Defined.

(** ** The batch *)

Section BatchFacts.

Variable write_error : string -> option Py.exn.
Variables (destination : string) (nlp : Pipeline).

Local Abbreviation result_of := (tag_file_result write_error destination nlp).
Local Abbreviation results_of :=
  (tag_files_result write_error destination nlp).
Local Abbreviation out_of := (out_file_of destination).




Lemma results_new_path (files : list string) (p : string) (w : World) :
  fs w !! p = None -> is_Some (fs (results_of files w) !! p) ->
  exists f, In f files /\ p = out_of f.
Proof.
  revert w. induction files as [|f rest IH]; intros w Hn Hs.
  - cbn in Hs. rewrite Hn in Hs. destruct Hs as [x Hx]. discriminate.
  - destruct (decide (p = out_of f)) as [->|Hne].
    + exists f. split; [now left | reflexivity].
    + rewrite results_cons in Hs.
      destruct (IH (result_of f w)) as (f' & Hf' & Hp);
        [now apply result_frame_None | exact Hs |].
      exists f'. split; [now right | exact Hp].
Qed.

(** X9. A run removes no path, and the only paths it creates are the
    output paths of the entries the source directory lists. *)
Theorem X9_only_output_paths_created (source : string)
    (names : list string) (w w' : World) (p : string) :
  fs w !! source = Some (Dir names) ->
  tag_files write_error source destination nlp w = (w', Py.Ok tt) ->
  (is_Some (fs w !! p) -> is_Some (fs w' !! p))
  /\ (fs w !! p = None -> is_Some (fs w' !! p) ->
      exists name,
        In name names
        /\ p = out_file_of destination (os_path.join source name)).
Proof.
  intros Hs Hrun.
  rewrite (tag_files_eq write_error destination nlp source names w Hs)
    in Hrun.
  injection Hrun as <-. split.
  - apply future_is_Some, results_future.
  - intros Hn Hsome.
    destruct (results_new_path _ p w Hn Hsome) as (f & Hf & ->).
    apply in_map_iff in Hf. destruct Hf as (name & <- & Hname).
    now exists name.
Qed.

Lemma file_text_app (a b : list string) :
  file_text (a ++ b) = file_text a +:+ file_text b.
Proof.
  induction a as [|x a IH]; [reflexivity|].
  cbn [app file_text]. now rewrite IH, !append_assoc.
Qed.

Lemma write_lines_fail (pre : list string) (l : string) (post : list string)
    (e : Py.exn) :
  (forall x, In x pre -> write_error (x +:+ NL) = None) ->
  write_error (l +:+ NL) = Some e ->
  write_lines write_error (pre ++ l :: post) = (file_text pre, Some e).
Proof.
  intros Hpre Hl. induction pre as [|x pre IH].
  - cbn [app write_lines file_text]. now rewrite Hl.
  - cbn [app write_lines file_text].
    rewrite (Hpre x) by now left.
    rewrite IH by (intros y Hy; apply Hpre; now right).
    reflexivity.
Qed.

End BatchFacts.

Section Collisions.

Variable write_error : string -> option Py.exn.
Variables (destination : string) (nlp : Pipeline).

Local Abbreviation result_of := (tag_file_result write_error destination nlp).
Local Abbreviation out_of := (out_file_of destination).

(** X10. When two input files have the same output path and the first
    can be converted, the loop converts the first and skips the second:
    the output file holds the lines of the first, and nothing of either
    reaches the log. *)
Theorem X10_same_output_path (f g c : string) (doc : Document)
    (es : list string) (w : World) :
  out_file_of destination f = out_file_of destination g ->
  fs w !! out_file_of destination f = None ->
  fs w !! f = Some (File c) ->
  nlp c = Py.Ok doc ->
  fs w !! out_dir_of destination f = Some (Dir es) ->
  (forall line, In line (cupt_lines f doc) ->
     write_error (line +:+ NL) = None) ->
  exists w2,
    io_for_each (tag_file write_error destination nlp) [f; g] w
    = (w2, Py.Ok tt)
    /\ fs w2 !! out_file_of destination g
       = Some (File (file_text (cupt_lines f doc)))
    /\ log w2 = log w.
Proof.
  intros Hsame Hout Hc Hn Hd Hw.
  rewrite loop_eq. eexists. split; [reflexivity|].
  unfold tag_files_result. cbn [fold_left].
  assert (Hres := result_written write_error destination nlp f w
                    (cupt_lines f doc) es Hout
                    (assemble_File nlp f c doc (fs w) Hc Hn) Hd).
  rewrite (write_lines_ok write_error _ Hw) in Hres. cbn [fst snd] in Hres.
  unfold processed_entry in Hres. rewrite add_log_info in Hres.
  assert (Hpresent : is_Some (fs (result_of f w) !! out_of g)).
  { rewrite <- Hsame, Hres. cbn [fs]. rewrite lookup_insert_eq. eauto. }
  rewrite (result_present write_error destination nlp g _ Hpresent).
  unfold exists_entry. rewrite add_log_info, Hres. cbn [fs log]. split.
  - rewrite <- Hsame. apply lookup_insert_eq.
  - reflexivity.
Qed.

(** X11. When the writing of a line raises because of its text, the
    output file stays with the lines written before, a prefix of the
    full text, and the error is logged; a later iteration for the file
    skips it and changes neither the file system nor the log, so that
    the output is never completed. *)
Theorem X11_partial_output_is_kept (path c : string) (doc : Document)
    (es pre : list string) (l : string) (post : list string) (e : Py.exn)
    (w : World) :
  fs w !! out_file_of destination path = None ->
  fs w !! path = Some (File c) ->
  nlp c = Py.Ok doc ->
  build_cupt_content path doc = Py.Ok (pre ++ l :: post) ->
  fs w !! out_dir_of destination path = Some (Dir es) ->
  (forall x, In x pre -> write_error (x +:+ NL) = None) ->
  write_error (l +:+ NL) = Some e ->
  exists w1 w2,
    tag_file write_error destination nlp path w = (w1, Py.Ok tt)
    /\ fs w1 !! out_file_of destination path = Some (File (file_text pre))
    /\ file_text (pre ++ l :: post)
       = file_text pre +:+ file_text (l :: post)
    /\ log w1 = log w ++ [error_entry (filename_of path) e]
    /\ tag_file write_error destination nlp path w1 = (w2, Py.Ok tt)
    /\ fs w2 = fs w1
    /\ log w2 = log w1.
Proof.
  intros Hout Hc Hn Hb Hd Hpre Hl.
  assert (Ha : assemble nlp path (fs w) = Py.Ok (pre ++ l :: post))
    by (unfold assemble; now rewrite Hc, Hn).
  assert (Hres := result_written write_error destination nlp path w
                    (pre ++ l :: post) es Hout Ha Hd).
  rewrite (write_lines_fail write_error pre l post e Hpre Hl) in Hres.
  cbn [fst snd] in Hres.
  assert (Hpresent : is_Some (fs (result_of path w) !! out_of path)).
  { rewrite Hres, fs_add_log. cbn [fs]. rewrite lookup_insert_eq. eauto. }
  exists (result_of path w), (result_of path (result_of path w)).
  split; [apply tag_file_eq|].
  split; [rewrite Hres, fs_add_log; apply lookup_insert_eq|].
  split; [apply file_text_app|].
  split; [now rewrite Hres|].
  split; [apply tag_file_eq|].
  rewrite (result_present write_error destination nlp path _ Hpresent).
  unfold exists_entry. rewrite add_log_info. split; reflexivity.
Qed.

End Collisions.

Lemma X9_only_output_paths_created_witness :
  (is_Some (fs small_world !! "src/a.txt") ->
   is_Some (fs small_world_after !! "src/a.txt"))
  /\ (fs small_world !! "out/a.cupt" = None ->
      is_Some (fs small_world_after !! "out/a.cupt") ->
      exists name,
        In name ["a.txt"; "b.txt"]
        /\ "out/a.cupt" = out_file_of "out" (os_path.join "src" name)).
Proof.
  split.
  - apply (X9_only_output_paths_created no_write_error "out" small_nlp
             "src" ["a.txt"; "b.txt"] small_world small_world_after
             "src/a.txt").
    + exact small_listing.
    + exact small_run.
  - apply (X9_only_output_paths_created no_write_error "out" small_nlp
             "src" ["a.txt"; "b.txt"] small_world small_world_after
             "out/a.cupt").
    + exact small_listing.
    + exact small_run.
Defined.

Lemma X10_same_output_path_witness :
  exists w2,
    io_for_each (tag_file no_write_error "out" small_nlp)
      ["src/a.txt"; "src/a.md"] small_world
    = (w2, Py.Ok tt)
    /\ fs w2 !! out_file_of "out" "src/a.md"
       = Some (File (file_text (cupt_lines "src/a.txt" two_words_doc)))
    /\ log w2 = log small_world.
Proof.
  apply (X10_same_output_path no_write_error "out" small_nlp
           "src/a.txt" "src/a.md" "Dober dan" two_words_doc []).
  - vm_compute. reflexivity.
  - vm_compute. reflexivity.
  - vm_compute. reflexivity.
  - reflexivity.
  - vm_compute. reflexivity.
  - intros line _. reflexivity.
Defined.

(** With an encoding that has no character above 127, the comment with
    the text of the sentence cannot be written: the output file keeps
    the header and the first comment. *)
Lemma X11_partial_output_is_kept_witness :
  exists w1 w2,
    tag_file ascii_only "out" vecer_nlp "src/a.txt" small_world
    = (w1, Py.Ok tt)
    /\ fs w1 !! out_file_of "out" "src/a.txt"
       = Some (File (file_text
                       [HEADER; "# source_sent_id = . . src/a.txt"]))
    /\ file_text ([HEADER; "# source_sent_id = . . src/a.txt"]
                  ++ ("# text = Dober " +:+ text vecer)
                     :: [word_line dober; ""; word_line vecer; ""])
       = file_text [HEADER; "# source_sent_id = . . src/a.txt"]
         +:+ file_text (("# text = Dober " +:+ text vecer)
                        :: [word_line dober; ""; word_line vecer; ""])
    /\ log w1
       = log small_world
         ++ [error_entry (filename_of "src/a.txt") unencodable]
    /\ tag_file ascii_only "out" vecer_nlp "src/a.txt" w1 = (w2, Py.Ok tt)
    /\ fs w2 = fs w1
    /\ log w2 = log w1.
Proof.
  apply (X11_partial_output_is_kept ascii_only "out" vecer_nlp
           "src/a.txt" "Dober dan" vecer_doc []
           [HEADER; "# source_sent_id = . . src/a.txt"]
           ("# text = Dober " +:+ text vecer)
           [word_line dober; ""; word_line vecer; ""]
           unencodable small_world).
  - vm_compute. reflexivity.
  - vm_compute. reflexivity.
  - reflexivity.
  - reflexivity.
  - vm_compute. reflexivity.
  - intros x Hx. simpl in Hx.
    destruct Hx as [<- | [<- | []]]; reflexivity.
  - reflexivity.
Defined.

(** ** The program as a whole *)

Section Program.

Variable write_error : string -> option Py.exn.
Variable stanfordnlp_Pipeline : string -> string -> Z -> Py.result Pipeline.

Local Abbreviation constructed args :=
  (stanfordnlp_Pipeline (lang args) (processors_args (processors args))
     (pos_batch_size_arg (batch args))).


(** X12. A failure of the construction of the pipeline, and a source
    that is not a directory, are not caught: the program ends with the
    exception, and neither the file system nor the log has changed. *)
Theorem X12_fatal_errors_propagate (args : Args) (w : World) :
  (forall e, constructed args = Py.Raise e ->
     main write_error stanfordnlp_Pipeline args w = (w, Py.Raise e))
  /\ (forall nlp,
        constructed args = Py.Ok nlp ->
        (forall names, fs w !! source args <> Some (Dir names)) ->
        exists e,
          main write_error stanfordnlp_Pipeline args w = (w, Py.Raise e)).
Proof.
  split.
  - intros e Hc. unfold main, io_bind, io_lift.
    now rewrite prepare_library_eq, Hc.
  - intros nlp Hc Hs. unfold main, io_bind, io_lift.
    rewrite prepare_library_eq, Hc.
    unfold tag_files, io_bind, os_listdir.
    destruct (fs w !! source args) as [[c|names]|] eqn:E; eauto.
    exfalso. now apply (Hs names).
Qed.

End Program.


Lemma X12_fatal_errors_propagate_witness :
  main no_write_error no_Pipeline small_args small_world
  = (small_world, Py.Raise no_models)
  /\ exists e,
       main no_write_error small_Pipeline lost_args small_world
       = (small_world, Py.Raise e).
Proof.
  split.
  - destruct (X12_fatal_errors_propagate no_write_error no_Pipeline
                small_args small_world) as (H & _).
    apply H. reflexivity.
  - destruct (X12_fatal_errors_propagate no_write_error small_Pipeline
                lost_args small_world) as (_ & H).
    apply (H small_nlp).
    + reflexivity.
    + intros names. vm_compute. discriminate.
Defined.

(** ** The command line *)

Lemma checked_processors_given (x : string) (l : list string) :
  checked_processors (Some (x :: l))
  = if Py.contains "tokenize" (x :: l) then Some (x :: l)
    else Some ((x :: l) ++ ["tokenize"]).
Proof.
  unfold checked_processors. cbn [truthy_list andb].
  now destruct (Py.contains "tokenize" (x :: l)).
Qed.

(** X14. The check of the processors keeps the given names in their
    order and adds at most [tokenize] at the end; applied twice it
    gives what it gives applied once. *)
Theorem X14_processor_check (ps : option (list string)) :
  checked_processors (checked_processors ps) = checked_processors ps
  /\ (forall l,
        exists suffix,
          checked_processors (Some l) = Some (l ++ suffix)
          /\ (suffix = [] \/ suffix = ["tokenize"]))
  /\ checked_processors None = None.
Proof.
  split; [|split; [|reflexivity]].
  - destruct ps as [[|x l]|]; try reflexivity.
    rewrite checked_processors_given.
    destruct (Py.contains "tokenize" (x :: l)) eqn:E.
    + rewrite checked_processors_given, E. reflexivity.
    + cbn [app]. rewrite checked_processors_given.
      assert (Hin : Py.contains "tokenize" (x :: l ++ ["tokenize"]) = true).
      { apply contains_In. right. apply in_or_app. right. now left. }
      rewrite Hin. reflexivity.
  - intros [|x l].
    + exists []. split; [reflexivity | now left].
    + rewrite checked_processors_given.
      destruct (Py.contains "tokenize" (x :: l)).
      * exists []. split; [now rewrite app_nil_r | now left].
      * exists ["tokenize"]. split; [reflexivity | now right].
Qed.

(** X15. The batch size given to the pipeline is never zero, and a
    negative [--batch] is passed on as it is. *)
Theorem X15_batch_size_never_zero :
  (forall b : option Z, pos_batch_size_arg b <> 0)
  /\ (forall n : Z, n < 0 -> pos_batch_size_arg (Some n) = n).
Proof.
  split.
  - intros [n|]; [|discriminate].
    unfold pos_batch_size_arg. cbn [Py.truthy].
    destruct (Z.eqb_spec n 0); cbn [negb]; [discriminate | assumption].
  - intros n Hn. unfold pos_batch_size_arg. cbn [Py.truthy].
    destruct (Z.eqb_spec n 0); cbn [negb]; [lia | reflexivity].
Qed.

Lemma X15_batch_size_never_zero_witness :
  pos_batch_size_arg (Some (-5)) = -5.
Proof.
  destruct X15_batch_size_never_zero as (_ & H). apply H. lia.
Defined.

(** ** Output paths *)

Lemma rfind_none (c : ascii) (s : string) :
  Py.has_char c s = false -> os_path.rfind c s = -1.
Proof.
  induction s as [|a s IH]; intros H; [reflexivity|].
  cbn [Py.has_char] in H. apply orb_false_iff in H. destruct H as [Ha Hs].
  cbn [os_path.rfind]. rewrite (IH Hs), Ha. reflexivity.
Qed.

Lemma rfind_app (c : ascii) (p name : string) :
  Py.has_char c name = false ->
  os_path.rfind c (p +:+ String c name) = Z.of_nat (String.length p).
Proof.
  intros H. induction p as [|a p IH].
  - rewrite append_empty_l. cbn [os_path.rfind].
    rewrite (rfind_none c name H), Ascii.eqb_refl. reflexivity.
  - rewrite append_cons. cbn [os_path.rfind String.length]. rewrite IH.
    destruct (Z.leb_spec 0 (Z.of_nat (String.length p))); lia.
Qed.

Lemma substring_all (s : string) : substring 0 (String.length s) s = s.
Proof. induction s as [|a s IH]; [reflexivity|]. cbn. now rewrite IH. Qed.

Lemma substring_skip (p s : string) (k m : nat) :
  substring (String.length p + k) m (p +:+ s) = substring k m s.
Proof.
  induction p as [|a p IH]; [reflexivity|].
  rewrite append_cons. cbn [String.length Nat.add substring]. exact IH.
Qed.

Lemma split_tail_app (p name : string) :
  Py.has_char "/" name = false ->
  snd (os_path.split (p +:+ String "/" name)) = name.
Proof.
  intros H. unfold os_path.split. cbv zeta. cbn [snd].
  rewrite (rfind_app "/" p name H). unfold os_path.drop.
  rewrite string_length_append. cbn [String.length].
  replace (Z.to_nat (Z.of_nat (String.length p) + 1))
    with (String.length p + 1)%nat by lia.
  replace (String.length p + S (String.length name)
           - (String.length p + 1))%nat
    with (String.length name) by lia.
  rewrite substring_skip. cbn [substring]. apply substring_all.
Qed.

Lemma split_tail_plain (name : string) :
  Py.has_char "/" name = false -> snd (os_path.split name) = name.
Proof.
  intros H. unfold os_path.split. cbv zeta. cbn [snd].
  rewrite (rfind_none "/" name H). unfold os_path.drop. cbn [Z.add Z.to_nat].
  rewrite Nat.sub_0_r. apply substring_all.
Qed.

Lemma startswith_none (c : ascii) (s : string) :
  Py.has_char c s = false -> os_path.startswith c s = false.
Proof.
  destruct s as [|a s]; [reflexivity|]. cbn [Py.has_char os_path.startswith].
  intros H. apply orb_false_iff in H. now destruct H.
Qed.

Lemma endswith_inv (c : ascii) (a : string) :
  os_path.endswith c a = true -> exists p, a = p +:+ String c "".
Proof.
  induction a as [|x a IH]; [discriminate|].
  destruct a as [|y a].
  - cbn [os_path.endswith]. intros H. apply Ascii.eqb_eq in H. subst x.
    now exists "".
  - intros H. destruct IH as [p Hp]; [exact H|].
    exists (String x p). rewrite append_cons. now rewrite <- Hp.
Qed.

(** The name of an entry is what [os.path.split] finds at the end of
    the path [os.path.join] made of it. *)
Lemma join_tail (source name : string) :
  Py.has_char "/" name = false ->
  snd (os_path.split (os_path.join source name)) = name.
Proof.
  intros H. unfold os_path.join. rewrite (startswith_none "/" name H).
  destruct (String.eqb_spec source "") as [->|Hne].
  - cbn [orb]. rewrite append_empty_l. now apply split_tail_plain.
  - cbn [orb]. destruct (os_path.endswith "/" source) eqn:E.
    + destruct (endswith_inv "/" source E) as [p ->].
      rewrite append_assoc, append_cons, append_empty_l.
      now apply split_tail_app.
    + rewrite append_cons, append_empty_l. now apply split_tail_app.
Qed.

(** X13. The output path of an entry of the source directory is made
    of the destination and of the name of the entry without its
    extension, whatever the source directory is, and it ends in
    [.cupt]. *)
Theorem X13_output_path_from_entry_name (source destination name : string) :
  Py.has_char "/" name = false ->
  filename_of (os_path.join source name) = fst (os_path.splitext name)
  /\ out_file_of destination (os_path.join source name)
     = os_path.join destination (fst (os_path.splitext name) +:+ ".cupt")
  /\ exists prefix,
       out_file_of destination (os_path.join source name)
       = prefix +:+ ".cupt".
Proof.
  intros H.
  assert (Hf : filename_of (os_path.join source name)
               = fst (os_path.splitext name))
    by (unfold filename_of; now rewrite join_tail).
  split; [exact Hf|]. split; [unfold out_file_of; now rewrite Hf|].
  unfold out_file_of. rewrite Hf. unfold os_path.join.
  destruct (os_path.startswith "/" _); [eauto|].
  destruct (_ || _).
  - eexists. now rewrite <- append_assoc.
  - eexists. now rewrite <- !append_assoc.
Qed.

Lemma X13_output_path_from_entry_name_witness :
  filename_of (os_path.join "src" "a.txt") = fst (os_path.splitext "a.txt")
  /\ out_file_of "out" (os_path.join "src" "a.txt")
     = os_path.join "out" (fst (os_path.splitext "a.txt") +:+ ".cupt")
  /\ exists prefix,
       out_file_of "out" (os_path.join "src" "a.txt") = prefix +:+ ".cupt".
Proof.
  apply (X13_output_path_from_entry_name "src" "out" "a.txt"). reflexivity.
Defined.

(** ** Reading the output back *)

Lemma split_file_text (lines : list string) :
  Forall (fun l => Py.has_char "010" l = false) lines ->
  Py.split "010" (file_text lines) = lines ++ [""].
Proof.
  induction lines as [|l rest IH]; intros H; [reflexivity|].
  inversion H as [|? ? Hl Hrest]; subst.
  cbn [file_text app]. unfold NL.
  rewrite append_assoc, append_cons, append_empty_l.
  rewrite (split_app "010" l _ Hl). now rewrite IH.
Qed.

Section ReadBack.

Variable write_error : string -> option Py.exn.
Variables (destination : string) (nlp : Pipeline).

(** X16. When a file is converted and no line of its output holds an
    end of line, the text of the output file cut at the ends of line
    gives the assembled lines, followed by the empty string that comes
    after the last end of line. *)
Theorem X16_output_reads_back (path c : string) (doc : Document)
    (es lines : list string) (w : World) :
  fs w !! out_file_of destination path = None ->
  fs w !! path = Some (File c) ->
  nlp c = Py.Ok doc ->
  build_cupt_content path doc = Py.Ok lines ->
  fs w !! out_dir_of destination path = Some (Dir es) ->
  (forall line, In line lines -> write_error (line +:+ NL) = None) ->
  Forall (fun l => Py.has_char "010" l = false) lines ->
  exists w' content,
    tag_file write_error destination nlp path w = (w', Py.Ok tt)
    /\ fs w' !! out_file_of destination path = Some (File content)
    /\ Py.split "010" content = lines ++ [""].
Proof.
  intros Hout Hc Hn Hb Hd Hw Hnl.
  assert (Ha : assemble nlp path (fs w) = Py.Ok lines)
    by (unfold assemble; now rewrite Hc, Hn).
  rewrite tag_file_eq.
  eexists. exists (file_text lines). split; [reflexivity|].
  rewrite (result_written write_error destination nlp path w lines es
             Hout Ha Hd).
  rewrite (write_lines_ok write_error lines Hw). cbn [fs fst].
  split; [apply lookup_insert_eq | now apply split_file_text].
Qed.

End ReadBack.

Lemma X16_output_reads_back_witness :
  exists w' content,
    tag_file no_write_error "out" small_nlp "src/a.txt" small_world
    = (w', Py.Ok tt)
    /\ fs w' !! out_file_of "out" "src/a.txt" = Some (File content)
    /\ Py.split "010" content = cupt_lines "src/a.txt" two_words_doc ++ [""].
Proof.
  apply (X16_output_reads_back no_write_error "out" small_nlp
           "src/a.txt" "Dober dan" two_words_doc []
           (cupt_lines "src/a.txt" two_words_doc) small_world).
  - vm_compute. reflexivity.
  - vm_compute. reflexivity.
  - reflexivity.
  - reflexivity.
  - vm_compute. reflexivity.
  - intros line _. reflexivity.
  - repeat apply Forall_cons_2; try apply Forall_nil_2; reflexivity.
Defined.
